(** * REACHER Suite: the dashboard launcher and the discovery broadcast service

  A shallow embedding of [src/dashboard/main.py] (session tabs, launcher
  window) and [src/api/app.py] (UDP discovery broadcast, signal handling),
  followed by the properties of these programs. *)

From Stdlib Require Import List String Ascii Bool Arith ZArith Lia.
From Stdlib Require Import Decimal DecimalString DecimalZ.
Import ListNotations.
Open Scope string_scope.

(** ** [src/dashboard/main.py]: the session tabs *)

Module Dashboard.

(** The renderables placed in a tab: the welcome column [tab_1], the layout
    of a [dashboard_lite.LDashboard] and the layout of a
    [dashboard.Dashboard]. *)
Inductive Layout : Type :=
| tab_1
| LDashboard_layout
| Dashboard_layout.

(** [pn.widgets.TextInput]: the two parameters the callbacks touch. *)
Record TextInput : Type := mkTextInput {
  value : string;
  placeholder : string
}.

(** [pn.Tabs]: a list of named objects, in tab order, and the index of the
    tab that has the focus. *)
Record Tabs : Type := mkTabs {
  objects : list (string * Layout);
  active : nat
}.

Definition _names (t : Tabs) : list string := map fst (objects t).
Definition len (t : Tabs) : nat := List.length (objects t).

(** The assignments and calls a callback performs on the widgets, in program
    order. *)
Inductive Write : Type :=
| SetValue (v : string)
| SetPlaceholder (p : string)
| Append (name : string) (l : Layout)
| SetActive (i : nat).

(** The module-level widgets, with the trace of what the callbacks did. *)
Record UI : Type := mkUI {
  box_name_TextInput : TextInput;
  session_tabs : Tabs;
  writes : list Write
}.

Definition initial : UI :=
  {| box_name_TextInput := {| value := ""; placeholder := "Enter a box name" |};
     session_tabs := {| objects := [("Welcome", tab_1)]; active := 0 |};
     writes := [] |}.

(** [box_name_TextInput.value = v] *)
Definition set_value (v : string) (ui : UI) : UI :=
  {| box_name_TextInput :=
       {| value := v; placeholder := placeholder (box_name_TextInput ui) |};
     session_tabs := session_tabs ui;
     writes := (writes ui ++ [SetValue v])%list |}.

(** [box_name_TextInput.placeholder = p] *)
Definition set_placeholder (p : string) (ui : UI) : UI :=
  {| box_name_TextInput :=
       {| value := value (box_name_TextInput ui); placeholder := p |};
     session_tabs := session_tabs ui;
     writes := (writes ui ++ [SetPlaceholder p])%list |}.

(** [session_tabs.append((name, layout))] *)
Definition append (name : string) (l : Layout) (ui : UI) : UI :=
  {| box_name_TextInput := box_name_TextInput ui;
     session_tabs :=
       {| objects := (objects (session_tabs ui) ++ [(name, l)])%list;
          active := active (session_tabs ui) |};
     writes := (writes ui ++ [Append name l])%list |}.

(** [session_tabs.active = i] *)
Definition set_active (i : nat) (ui : UI) : UI :=
  {| box_name_TextInput := box_name_TextInput ui;
     session_tabs := {| objects := objects (session_tabs ui); active := i |};
     writes := (writes ui ++ [SetActive i])%list |}.

(** Python's [x in xs] on a list of strings. *)
Definition py_in (x : string) (xs : list string) : bool :=
  existsb (String.eqb x) xs.

Definition make_new_local_instance_tab (ui : UI) : UI :=
  if value (box_name_TextInput ui) =? "" then
    set_placeholder "Please enter a name and try again." ui
  else if py_in (value (box_name_TextInput ui)) (_names (session_tabs ui)) then
    let ui := set_value "" ui in
    set_placeholder "Name entered already exists. Please enter a different name." ui
  else
    let new_dashboard := LDashboard_layout in
    let ui := append ("LOCAL - " ++ value (box_name_TextInput ui)) new_dashboard ui in
    let ui := set_active (len (session_tabs ui) - 1) ui in
    let ui := set_value "" ui in
    set_placeholder "" ui.

Definition make_new_network_instance_tab (ui : UI) : UI :=
  if value (box_name_TextInput ui) =? "" then
    set_placeholder "Please enter a name and try again." ui
  else if py_in (value (box_name_TextInput ui)) (_names (session_tabs ui)) then
    let ui := set_value "" ui in
    set_placeholder "Name entered already exists. Please enter a different name." ui
  else
    let new_dashboard := Dashboard_layout in
    let ui := append ("NETWORK - " ++ value (box_name_TextInput ui)) new_dashboard ui in
    let ui := set_active (len (session_tabs ui) - 1) ui in
    let ui := set_value "" ui in
    set_placeholder "" ui.

(** The two kinds of session, one per button. *)
Inductive Kind : Type := Local | Network.

(** The user types [name] into the text box (no callback runs). *)
Definition type_name (name : string) (ui : UI) : UI :=
  {| box_name_TextInput :=
       {| value := name; placeholder := placeholder (box_name_TextInput ui) |};
     session_tabs := session_tabs ui;
     writes := writes ui |}.

(** [on_click] dispatch of the two buttons. *)
Definition click (k : Kind) (ui : UI) : UI :=
  match k with
  | Local => make_new_local_instance_tab ui
  | Network => make_new_network_instance_tab ui
  end.

(** One createSession request: the name is typed, then a button is clicked. *)
Definition createSession (name : string) (k : Kind) (ui : UI) : UI :=
  click k (type_name name ui).

(** A sequence of requests applied from left to right. *)
Definition run (calls : list (string * Kind)) (ui : UI) : UI :=
  fold_left (fun u c => createSession (fst c) (snd c) u) calls ui.

(** The tab label given to a session of kind [k] named [name]. *)
Definition label (k : Kind) (name : string) : string :=
  match k with
  | Local => "LOCAL - " ++ name
  | Network => "NETWORK - " ++ name
  end.

Definition layout (k : Kind) : Layout :=
  match k with
  | Local => LDashboard_layout
  | Network => Dashboard_layout
  end.

(** No tab is labelled with the empty string. *)
Definition labelled (ui : UI) : Prop := ~ In "" (_names (session_tabs ui)).

End Dashboard.

(** ** [src/dashboard/main.py]: the launcher window *)

Module Supervisor.

(** A [multiprocessing.Process] after [start()]. A live process carries the
    number of clock ticks the operating system needs to tear it down once it
    has been told to terminate. *)
Inductive Process : Type :=
| Alive (teardown : nat)
| Terminating (remaining : nat)
| Exited (exitcode : Z).

Definition is_alive (p : Process) : bool :=
  match p with
  | Exited _ => false
  | _ => true
  end.

(** [Process.terminate()]: SIGTERM on POSIX, TerminateProcess on Windows; no
    request is sent to the server first. *)
Definition terminate (p : Process) : Process :=
  match p with
  | Alive d => Terminating d
  | _ => p
  end.

Definition SIGTERM : Z := 15.

(** [Process.join(timeout)]: the process afterwards and the ticks spent
    waiting; [None] when the call never returns (no timeout, and a server
    that nobody stops). *)
Definition join (timeout : option nat) (p : Process) : option (Process * nat) :=
  match p, timeout with
  | Exited c, _ => Some (Exited c, 0)
  | Terminating n, None => Some (Exited (- SIGTERM), n)
  | Terminating n, Some t =>
      if (n <=? t)%nat then Some (Exited (- SIGTERM), n)
      else Some (Terminating (n - t), t)
  | Alive d, Some t => Some (Alive d, t)
  | Alive _, None => None
  end.

(** What the close handler asks of the window, of the server process and
    of the interpreter, in program order. *)
Inductive Call : Type :=
| root_destroy
| panel_process_is_alive
| panel_process_terminate
| panel_process_join (timeout : option nat)
| sys_exit (status : Z).

(** The launcher: the tk root window, the server process, a clock and the
    calls made so far. *)
Record Launcher : Type := mkLauncher {
  window_open : bool;
  panel_process : Process;
  clock : nat;
  calls : list Call
}.

(** How a tk callback ends: it returns to the main loop, it raises
    [SystemExit], or it never comes back. *)
Inductive Completion : Type :=
| Returns
| SystemExit (status : Z)
| Blocked.

Definition called (c : Call) (s : Launcher) : Launcher :=
  {| window_open := window_open s; panel_process := panel_process s;
     clock := clock s; calls := (calls s ++ [c])%list |}.

Definition destroy (s : Launcher) : Launcher :=
  called root_destroy
    {| window_open := false; panel_process := panel_process s;
       clock := clock s; calls := calls s |}.

Definition do_terminate (s : Launcher) : Launcher :=
  called panel_process_terminate
    {| window_open := window_open s;
       panel_process := terminate (panel_process s);
       clock := clock s; calls := calls s |}.

Definition do_join (timeout : option nat) (s : Launcher) : option Launcher :=
  let s := called (panel_process_join timeout) s in
  match join timeout (panel_process s) with
  | Some (p, dt) =>
      Some {| window_open := window_open s; panel_process := p;
              clock := clock s + dt; calls := calls s |}
  | None => None
  end.

(** [on_closing], with the answer given to [messagebox.askokcancel]. *)
Definition on_closing (askokcancel : bool) (s : Launcher)
    : Launcher * Completion :=
  if askokcancel then
    let s := destroy s in
    let s := called panel_process_is_alive s in
    if is_alive (panel_process s) then
      let s := do_terminate s in
      match do_join None s with
      | Some s => (called (sys_exit 0) s, SystemExit 0)
      | None => (called (panel_process_join None) s, Blocked)
      end
    else (called (sys_exit 0) s, SystemExit 0)
  else (s, Returns).

(** *** Sample states *)

(** The launcher with its window up and the server running. *)
Definition serving : Launcher :=
  {| window_open := true; panel_process := Alive 7; clock := 100; calls := [] |}.

(** The launcher after the server has died on its own. *)
Definition orphaned : Launcher :=
  {| window_open := true; panel_process := Exited 1; clock := 100; calls := [] |}.

(** *** The main loop *)

(** The close requests made while [application.mainloop()] runs, each with
    the answer the user gives to the dialog; [root.protocol] has installed
    [on_closing] for them. A handler that returns gives control back to the
    loop, anything else ends it. *)
Fixpoint close_requests (answers : list bool) (s : Launcher)
    : Launcher * Completion :=
  match answers with
  | [] => (s, Returns)
  | a :: answers =>
      match on_closing a s with
      | (s', Returns) => close_requests answers s'
      | r => r
      end
  end.

End Supervisor.

(** ** Python's [uuid] module, as far as [uuid.uuid4()] and [str] use it *)

Module Uuid.

(** [uuid.uuid4()] is [UUID(bytes=os.urandom(16), version=4)]: the sixteen
    random bytes read as a big-endian integer, with the variant and version
    bits overwritten. *)
Definition uuid4 (urandom16 : Z) : Z :=
  let int := urandom16 in
  let int := Z.land int (Z.lnot (Z.shiftl 0xc000 48)) in
  let int := Z.lor int (Z.shiftl 0x8000 48) in
  let int := Z.land int (Z.lnot (Z.shiftl 0xf000 64)) in
  Z.lor int (Z.shiftl 4 76).

(** The [k]-th hexadecimal digit of [n], counted from the least significant. *)
Definition nibble (k : nat) (n : Z) : Z :=
  Z.land (Z.shiftr n (4 * Z.of_nat k)) 15.

Definition hexchar (d : Z) : ascii :=
  match d with
  | 0 => "0" | 1 => "1" | 2 => "2" | 3 => "3"
  | 4 => "4" | 5 => "5" | 6 => "6" | 7 => "7"
  | 8 => "8" | 9 => "9" | 10 => "a" | 11 => "b"
  | 12 => "c" | 13 => "d" | 14 => "e" | _ => "f"
  end%Z%char.

(** The [width] low hexadecimal digits of [n], most significant first. *)
Fixpoint hex_digits (width : nat) (n : Z) : string :=
  match width with
  | O => EmptyString
  | S w => String (hexchar (nibble w n)) (hex_digits w n)
  end.

(** ['%032x' % int], for the integers a [UUID] can hold
    ([0 <= int < 1 << 128]). *)
Definition format_032x (int : Z) : string := hex_digits 32 int.

(** [UUID.__str__] *)
Definition str (int : Z) : string :=
  let hex := format_032x int in
  substring 0 8 hex ++ "-" ++ substring 8 4 hex ++ "-" ++ substring 12 4 hex
    ++ "-" ++ substring 16 4 hex ++ "-" ++ substring 20 12 hex.







End Uuid.

(** ** Python's [json.dumps], for a flat dictionary of strings and integers *)

Module Json.

Inductive Value : Type :=
| Str (s : string)
| Int (z : Z).

(** A [dict] with string keys, in insertion order. *)
Definition Dict : Type := list (string * Value).

Definition dquote : ascii := "034"%char.
Definition backslash : ascii := "092"%char.

(** Characters [' '] to ['~']. *)
Definition printable (c : ascii) : bool :=
  ((32 <=? nat_of_ascii c) && (nat_of_ascii c <=? 126))%nat.



(** The replacement [encode_basestring_ascii] makes for one character. *)
Definition escape_char (c : ascii) : string :=
  if Ascii.eqb c dquote then String backslash (String dquote "")
  else if Ascii.eqb c backslash then String backslash (String backslash "")
  else if Ascii.eqb c "008" then String backslash "b"
  else if Ascii.eqb c "012" then String backslash "f"
  else if Ascii.eqb c "010" then String backslash "n"
  else if Ascii.eqb c "013" then String backslash "r"
  else if Ascii.eqb c "009" then String backslash "t"
  else if printable c then String c ""
  else String backslash ("u" ++ Uuid.hex_digits 4 (Z.of_nat (nat_of_ascii c))).

Fixpoint escape (s : string) : string :=
  match s with
  | EmptyString => EmptyString
  | String c s => escape_char c ++ escape s
  end.

Definition encode_basestring_ascii (s : string) : string :=
  String dquote (escape s ++ String dquote "").

(** [int.__repr__] *)
Definition repr_int (z : Z) : string :=
  DecimalString.NilZero.string_of_int (Z.to_int z).

Definition dumps_value (v : Value) : string :=
  match v with
  | Str s => encode_basestring_ascii s
  | Int z => repr_int z
  end.

Definition dumps_item (kv : string * Value) : string :=
  encode_basestring_ascii (fst kv) ++ ": " ++ dumps_value (snd kv).

Fixpoint dumps_items (d : Dict) : string :=
  match d with
  | [] => ""
  | [kv] => dumps_item kv
  | kv :: d => dumps_item kv ++ ", " ++ dumps_items d
  end.

(** [json.dumps(d)] with the default separators and [ensure_ascii]. *)
Definition dumps (d : Dict) : string := "{" ++ dumps_items d ++ "}".

(** [str.encode('utf-8')]; the text [dumps] produces is ASCII, one byte per
    character. *)
Definition encode_utf8 (s : string) : list Byte.byte := list_byte_of_string s.
Definition decode_utf8 (b : list Byte.byte) : string := string_of_list_byte b.

(** *** A reader for the same fragment of JSON

    Objects whose members are strings without escape sequences and
    integers in canonical decimal form, members separated by a comma
    and a space. Every text it accepts is a JSON text. *)

(** After the opening quote: the characters up to the closing quote, and
    what follows it. *)
Fixpoint read_string (s : string) : option (string * string) :=
  match s with
  | EmptyString => None
  | String c rest =>
      if Ascii.eqb c dquote then Some (EmptyString, rest)
      else if Ascii.eqb c backslash || negb (printable c) then None
      else match read_string rest with
           | Some (v, rest') => Some (String c v, rest')
           | None => None
           end
  end.

Definition number_char (c : ascii) : bool :=
  Ascii.eqb c "-" || ((48 <=? nat_of_ascii c) && (nat_of_ascii c <=? 57))%nat.

Fixpoint span_number (s : string) : string * string :=
  match s with
  | EmptyString => (EmptyString, EmptyString)
  | String c rest =>
      if number_char c
      then let (tok, rest') := span_number rest in (String c tok, rest')
      else (EmptyString, s)
  end.


Definition read_int (s : string) : option (Z * string) :=
  let (tok, rest) := span_number s in
  match DecimalString.NilZero.int_of_string tok with
  | Some d =>
      let z := Z.of_int d in
      if repr_int z =? tok then Some (z, rest) else None
  | None => None
  end.

Definition read_value (s : string) : option (Value * string) :=
  match s with
  | EmptyString => None
  | String c rest =>
      if Ascii.eqb c dquote then
        match read_string rest with
        | Some (v, rest') => Some (Str v, rest')
        | None => None
        end
      else
        match read_int s with
        | Some (z, rest') => Some (Int z, rest')
        | None => None
        end
  end.

(** One member [{"key": value}], then either the closing brace or a
    separator and further members. *)
Fixpoint read_members (fuel : nat) (s : string) : option (Dict * string) :=
  match fuel with
  | O => None
  | S fuel =>
      match s with
      | String q s1 =>
          if Ascii.eqb q dquote then
            match read_string s1 with
            | Some (k, String ":" (String " " s2)) =>
                match read_value s2 with
                | Some (v, String "}" s3) => Some ([(k, v)], s3)
                | Some (v, String "," (String " " s3)) =>
                    match read_members fuel s3 with
                    | Some (d, s4) => Some ((k, v) :: d, s4)
                    | None => None
                    end
                | _ => None
                end
            | _ => None
            end
          else None
      | EmptyString => None
      end
  end.

Definition loads (s : string) : option Dict :=
  match s with
  | String "{" (String "}" EmptyString) => Some []
  | String "{" s1 =>
      match read_members (String.length s1) s1 with
      | Some (d, EmptyString) => Some d
      | _ => None
      end
  | _ => None
  end.



(** Texts made of the characters [' '] to ['~'] only. *)
Fixpoint printable_text (s : string) : bool :=
  match s with
  | EmptyString => true
  | String c s => printable c && printable_text s
  end.

End Json.

(** ** [src/api/app.py]: the discovery broadcast service *)

Module Broadcast.

(** The exceptions that occur: [OSError] (socket errors, [socket.timeout]
    and [socket.gaierror] included), [UnboundLocalError] and [SystemExit]. *)
Inductive Exn : Type :=
| OSError (strerror : string)
| UnboundLocalError (name : string)
| SystemExit (status : Z).

(** [isinstance(e, Exception)]: [SystemExit] derives from [BaseException]
    only. *)
Definition is_Exception (e : Exn) : bool :=
  match e with
  | SystemExit _ => false
  | _ => true
  end.

(** How a call ends; [Running] is a loop that has not left yet when the
    fuel of the model runs out. *)
Inductive Completion : Type :=
| Normal
| Raised (e : Exn)
| Running.

Inductive Level : Type := INFO | WARNING | ERROR.

(** The log messages of the module, with the values their f-strings embed. *)
Inductive Message : Type :=
| Starting_broadcast_service
| Generated_unique_key (unique_key : string)
| Broadcast_sent (port : Z) (payload : Json.Dict)
| Broadcast_error (e : Exn)
| Broadcast_service_failed (e : Exn)
| Broadcast_service_stopped
| Shutting_down_services.

(** One call of [sendto]: when, to which port of ['<broadcast>'], what. *)
Record Datagram : Type := mkDatagram {
  sent_at : nat;
  dest_port : Z;
  data : list Byte.byte
}.

(** The process state the service touches: the module-level [stop_event],
    a logical clock, how often the entropy source has been read, the number
    of open sockets, the datagrams put on the network and the log. *)
Record Service : Type := mkService {
  stop_event : bool;
  clock : nat;
  entropy_reads : nat;
  open_sockets : nat;
  sent : list Datagram;
  log : list (Level * Message)
}.

(** What a run reads from outside: the entropy source, the resolver, the
    outcome of the socket calls, and the other threads, through the times at
    which [stop_event] has been set by one of them since the run began. *)
Record World : Type := mkWorld {
  urandom16 : nat -> Z;
  gethostbyname : Exn + string;
  socket_error : option Exn;
  setsockopt_error : option Exn;
  bind_error : option Exn;
  sendto_error : nat -> option Exn;
  stop_requested : nat -> bool
}.

Definition set_stop_event (b : bool) (s : Service) : Service :=
  {| stop_event := b; clock := clock s; entropy_reads := entropy_reads s;
     open_sockets := open_sockets s; sent := sent s; log := log s |}.

Definition logging (l : Level) (m : Message) (s : Service) : Service :=
  {| stop_event := stop_event s; clock := clock s;
     entropy_reads := entropy_reads s; open_sockets := open_sockets s;
     sent := sent s; log := (log s ++ [(l, m)])%list |}.

(** [time.sleep(secs)]: the only statement that lets the clock advance. *)
Definition sleep (secs : nat) (s : Service) : Service :=
  {| stop_event := stop_event s; clock := clock s + secs;
     entropy_reads := entropy_reads s; open_sockets := open_sockets s;
     sent := sent s; log := log s |}.

Definition socket_opened (s : Service) : Service :=
  {| stop_event := stop_event s; clock := clock s;
     entropy_reads := entropy_reads s; open_sockets := S (open_sockets s);
     sent := sent s; log := log s |}.

(** [server.close()] *)
Definition close (s : Service) : Service :=
  {| stop_event := stop_event s; clock := clock s;
     entropy_reads := entropy_reads s; open_sockets := pred (open_sockets s);
     sent := sent s; log := log s |}.

(** [server.sendto(message, ('<broadcast>', port))] when it succeeds. *)
Definition sendto (message : list Byte.byte) (port : Z) (s : Service) : Service :=
  {| stop_event := stop_event s; clock := clock s;
     entropy_reads := entropy_reads s; open_sockets := open_sockets s;
     sent := (sent s ++ [{| sent_at := clock s; dest_port := port;
                            data := message |}])%list;
     log := log s |}.

(** [str(uuid.uuid4())]: one read of the entropy source. *)
Definition str_uuid4 (w : World) (s : Service) : string * Service :=
  (Uuid.str (Uuid.uuid4 (urandom16 w (entropy_reads s))),
   {| stop_event := stop_event s; clock := clock s;
      entropy_reads := S (entropy_reads s); open_sockets := open_sockets s;
      sent := sent s; log := log s |}).

(** [stop_event.is_set()] as the loop reads it: the flag, with what the
    other threads have written by now. *)
Definition observe (w : World) (s : Service) : Service :=
  set_stop_event (stop_event s || stop_requested w (clock s)) s.

Section Config.

(** [int(os.getenv("REACHER_UDP_PORT", 7899))] and
    [int(os.getenv("REACHER_HTTP_PORT", 6229))]. *)
Variables UDP_PORT HTTP_PORT : Z.

Definition payload (unique_key local_ip : string) : Json.Dict :=
  [ ("message", Json.Str "REACHER_DEVICE_DISCOVERY");
    ("key", Json.Str unique_key);
    ("name", Json.Str "REACHER_Device");
    ("address", Json.Str local_ip);
    ("port", Json.Int HTTP_PORT) ].

(** The datagram a run with key [unique_key] and address [local_ip] sends at
    time [t]. *)
Definition announcement (unique_key local_ip : string) (t : nat) : Datagram :=
  {| sent_at := t; dest_port := UDP_PORT;
     data := Json.encode_utf8 (Json.dumps (payload unique_key local_ip)) |}.

(** [while not stop_event.is_set(): ...], entered for the [i]-th time. *)
Fixpoint send_loop (fuel : nat) (w : World) (unique_key local_ip : string)
    (i : nat) (s : Service) : Completion * Service :=
  match fuel with
  | O => (Running, s)
  | S fuel =>
      let s := observe w s in
      if stop_event s then (Normal, s)
      else
        let payload := payload unique_key local_ip in
        let message := Json.encode_utf8 (Json.dumps payload) in
        match sendto_error w i with
        | None =>
            let s := sendto message UDP_PORT s in
            let s := logging INFO (Broadcast_sent UDP_PORT payload) s in
            let s := sleep 5 s in
            send_loop fuel w unique_key local_ip (S i) s
        | Some e =>
            if is_Exception e then
              let s := logging WARNING (Broadcast_error e) s in
              send_loop fuel w unique_key local_ip (S i) s
            else (Raised e, s)
        end
  end.

(** The [try] block of [run_service]: whether [server] got bound, and how
    the block ended. [server.settimeout(0.2)] raises nothing and only bounds
    the time a socket call may block, which takes no time here. *)
Definition try_block (fuel : nat) (w : World) (unique_key local_ip : string)
    (s : Service) : bool * Completion * Service :=
  match socket_error w with
  | Some e => (false, Raised e, s)
  | None =>
      let s := socket_opened s in
      match setsockopt_error w with
      | Some e => (true, Raised e, s)
      | None =>
          match bind_error w with
          | Some e => (true, Raised e, s)
          | None =>
              let (c, s) := send_loop fuel w unique_key local_ip 0 s in
              (true, c, s)
          end
      end
  end.

Definition run_service (fuel : nat) (w : World) (s : Service)
    : Completion * Service :=
  let s := if stop_event s then set_stop_event false s else s in
  let s := logging INFO Starting_broadcast_service s in
  let (unique_key, s) := str_uuid4 w s in
  match gethostbyname w with
  | inl e => (Raised e, s)
  | inr local_ip =>
      let s := logging INFO (Generated_unique_key unique_key) s in
      match try_block fuel w unique_key local_ip s with
      | (_, Running, s) => (Running, s)
      | (server_bound, c, s) =>
          (* except Exception as e *)
          let (c, s) :=
            match c with
            | Raised e =>
                if is_Exception e
                then (Normal, logging ERROR (Broadcast_service_failed e) s)
                else (c, s)
            | _ => (c, s)
            end in
          (* finally *)
          if server_bound then
            let s := close s in
            let s := logging INFO Broadcast_service_stopped s in
            (c, s)
          else (Raised (UnboundLocalError "server"), s)
      end
  end.

(** The log record round [i] of the loop leaves: the datagram it sent, or
    the error [sendto] raised. *)
Definition round_record (w : World) (unique_key local_ip : string) (i : nat)
    : Level * Message :=
  match sendto_error w i with
  | None => (INFO, Broadcast_sent UDP_PORT (payload unique_key local_ip))
  | Some e => (WARNING, Broadcast_error e)
  end.

(** Whether [sendto] succeeds in round [i]. *)
Definition sendto_succeeds (w : World) (i : nat) : bool :=
  match sendto_error w i with
  | None => true
  | Some _ => false
  end.

(** [end_service] *)
Definition end_service (s : Service) : Service := set_stop_event true s.

(** [shutdown_service(signal, frame)] *)
Definition shutdown_service (signal : Z) (frame : unit) (s : Service)
    : Completion * Service :=
  let s := logging INFO Shutting_down_services s in
  let s := set_stop_event true s in
  (Raised (SystemExit 0), s).

End Config.

(** *** The hosting process *)

Definition SIGINT : Z := 2.
Definition SIGTERM : Z := 15.

Definition Handler : Type := Z -> unit -> Service -> Completion * Service.

(** [signal.signal(signalnum, handler)] on the table of Python handlers. *)
Definition signal_signal (signalnum : Z) (handler : Handler)
    (table : Z -> option Handler) : Z -> option Handler :=
  fun n => if (n =? signalnum)%Z then Some handler else table n.

(** The table after the two module-level registrations. *)
Definition handlers : Z -> option Handler :=
  signal_signal SIGTERM shutdown_service
    (signal_signal SIGINT shutdown_service (fun _ => None)).

(** The state of [broadcast_thread], a daemon thread. *)
Inductive Thread : Type := Not_started | In_send_loop | Finished.

Record Process : Type := mkProcess {
  service : Service;
  broadcast_thread : Thread;
  exit_status : option Z
}.

(** Delivery of a signal to the main thread: the registered handler runs;
    a [SystemExit] it raises ends the process with that status. Daemon
    threads are not joined. *)
Definition deliver (signalnum : Z) (p : Process) : Process :=
  match handlers signalnum with
  | Some handler =>
      match handler signalnum tt (service p) with
      | (Raised (SystemExit status), s) =>
          {| service := s; broadcast_thread := broadcast_thread p;
             exit_status := Some status |}
      | (_, s) =>
          {| service := s; broadcast_thread := broadcast_thread p;
             exit_status := exit_status p |}
      end
  | None => p
  end.

(** *** Sample runs *)

(** The service before its first run. *)
Definition idle : Service :=
  {| stop_event := false; clock := 0; entropy_reads := 0; open_sockets := 0;
     sent := []; log := [] |}.

(** A world in which nothing fails and [stop_event] is set at time [T]. *)
Definition calm (T : nat) : World :=
  {| urandom16 :=
     fun n => ((0x0123456789abcdef0123456789abcdef + Z.of_nat n) mod 2 ^ 128)%Z;
     gethostbyname := inr "192.168.1.20";
     socket_error := None;
     setsockopt_error := None;
     bind_error := None;
     sendto_error := fun _ => None;
     stop_requested := fun t => (T <? t)%nat |}.

(** The same world when the process has no file descriptor left. *)
Definition out_of_descriptors (T : nat) : World :=
  {| urandom16 := urandom16 (calm T);
     gethostbyname := gethostbyname (calm T);
     socket_error := Some (OSError "Too many open files");
     setsockopt_error := None;
     bind_error := None;
     sendto_error := sendto_error (calm T);
     stop_requested := stop_requested (calm T) |}.

(** The datagram the calm world sees at time 5. *)
Definition second_datagram : Datagram :=
  {| sent_at := 5; dest_port := 7899;
     data :=
       Json.encode_utf8
         (Json.dumps
            [ ("message", Json.Str "REACHER_DEVICE_DISCOVERY");
              ("key", Json.Str "01234567-89ab-4def-8123-456789abcdef");
              ("name", Json.Str "REACHER_Device");
              ("address", Json.Str "192.168.1.20");
              ("port", Json.Int 6229) ]) |}.

(** The calm world on a host whose name does not resolve. *)
Definition unresolvable (T : nat) : World :=
  {| urandom16 := urandom16 (calm T);
     gethostbyname := inl (OSError "Name or service not known");
     socket_error := None;
     setsockopt_error := None;
     bind_error := None;
     sendto_error := sendto_error (calm T);
     stop_requested := stop_requested (calm T) |}.

(** The calm world when [bind] is refused. *)
Definition bind_refused (T : nat) : World :=
  {| urandom16 := urandom16 (calm T);
     gethostbyname := gethostbyname (calm T);
     socket_error := None;
     setsockopt_error := None;
     bind_error := Some (OSError "Permission denied");
     sendto_error := sendto_error (calm T);
     stop_requested := stop_requested (calm T) |}.

(** The calm world with the network down during the first two rounds. *)
Definition flaky (T : nat) : World :=
  {| urandom16 := urandom16 (calm T);
     gethostbyname := gethostbyname (calm T);
     socket_error := None;
     setsockopt_error := None;
     bind_error := None;
     sendto_error :=
       fun i => if (i <? 2)%nat then Some (OSError "Network is unreachable")
                else None;
     stop_requested := stop_requested (calm T) |}.

(** A world in which nobody ever asks the service to stop. *)
Definition unattended : World :=
  {| urandom16 := urandom16 (calm 0);
     gethostbyname := gethostbyname (calm 0);
     socket_error := None;
     setsockopt_error := None;
     bind_error := None;
     sendto_error := sendto_error (flaky 0);
     stop_requested := fun _ => false |}.

End Broadcast.

(** * Properties *)

(** ** The session tabs *)

Section SessionTabs.

Import Dashboard.

Lemma py_in_true (x : string) (xs : list string) :
  py_in x xs = true <-> In x xs.
Proof.
  unfold py_in. rewrite existsb_exists. split.
  - intros [y [Hy Heq]]. apply String.eqb_eq in Heq. now subst.
  - intros H. exists x. split; [assumption | apply String.eqb_refl].
Qed.

Lemma py_in_false (x : string) (xs : list string) :
  py_in x xs = false <-> ~ In x xs.
Proof.
  rewrite <- py_in_true. destruct (py_in x xs); split; congruence.
Qed.

(** The two callbacks differ in the label prefix and in the dashboard they
    build, and in nothing else. *)
Lemma click_unfold (k : Kind) (ui : UI) :
  click k ui =
  if value (box_name_TextInput ui) =? "" then
    set_placeholder "Please enter a name and try again." ui
  else if py_in (value (box_name_TextInput ui)) (_names (session_tabs ui)) then
    set_placeholder
      "Name entered already exists. Please enter a different name."
      (set_value "" ui)
  else
    set_placeholder ""
      (set_value ""
         (set_active (len (session_tabs ui))
            (append (label k (value (box_name_TextInput ui))) (layout k) ui))).
Proof.
  destruct k; unfold click, make_new_local_instance_tab,
    make_new_network_instance_tab, label, layout;
    destruct (value (box_name_TextInput ui) =? ""); try reflexivity;
    destruct (py_in _ _); try reflexivity;
    unfold set_placeholder, set_value, set_active, append, len; cbn;
    rewrite length_app; cbn; rewrite Nat.add_1_r, Nat.sub_1_r; reflexivity.
Qed.

Lemma label_not_empty (k : Kind) (name : string) : label k name <> "".
Proof. destruct k; discriminate. Qed.

Lemma createSession_labelled (name : string) (k : Kind) (ui : UI) :
  labelled ui -> labelled (createSession name k ui).
Proof.
  unfold labelled, createSession. intros H. rewrite click_unfold. cbn.
  destruct (name =? ""); [exact H|].
  destruct (py_in name _); [exact H|].
  unfold _names in *. cbn. rewrite map_app, in_app_iff. cbn.
  intros [Hin | [Heq | []]]; [now apply H | now apply (label_not_empty k name)].
Qed.

Lemma run_labelled (calls : list (string * Kind)) (ui : UI) :
  labelled ui -> labelled (run calls ui).
Proof.
  revert ui. induction calls as [| [name k] calls IH]; intros ui H.
  - exact H.
  - cbn. apply IH, createSession_labelled, H.
Qed.

Lemma initial_labelled : labelled initial.
Proof. unfold labelled. cbn. intros [H | []]. discriminate. Qed.

(** C1: names do not stay unique. The membership test of the callbacks
    compares the typed name with the tab labels, which carry the prefix of
    the session kind: asking twice for a local session named A gives two
    tabs labelled LOCAL - A, and asking for a local and then a network
    session named A gives three tabs where two were to be expected. *)
Theorem session_names_repeat :
  _names (session_tabs (run [("A", Local); ("A", Local)] initial))
    = ["Welcome"; "LOCAL - A"; "LOCAL - A"]
  /\ ~ NoDup (_names (session_tabs (run [("A", Local); ("A", Local)] initial)))
  /\ len (session_tabs (run [("A", Local); ("A", Network)] initial)) = 3.
Proof.
  split; [reflexivity | split; [| reflexivity]].
  cbn. intros H. inversion H as [| ? ? _ H1]; subst.
  inversion H1 as [| ? ? Hnotin _]; subst.
  apply Hnotin. now left.
Qed.

(** The branch the membership test guards: in every state the tabs reach
    from the initial one, a request whose name is itself the label of a tab
    changes neither the tabs nor their order nor the focus, empties the text
    box and shows the message that the name exists. *)
Lemma createSession_existing_name :
  forall (calls : list (string * Kind)) (name : string) (k : Kind),
    In name (_names (session_tabs (run calls initial))) ->
    let ui := run calls initial in
    let ui' := createSession name k ui in
    session_tabs ui' = session_tabs ui
    /\ value (box_name_TextInput ui') = ""
    /\ placeholder (box_name_TextInput ui')
       = "Name entered already exists. Please enter a different name."
    /\ writes ui'
       = (writes ui ++
          [SetValue "";
           SetPlaceholder
             "Name entered already exists. Please enter a different name."])%list.
Proof.
  intros calls name k Hin ui ui'. subst ui'.
  assert (Hne : name <> "").
  { intros ->. exact (run_labelled calls initial initial_labelled Hin). }
  unfold createSession. rewrite click_unfold. cbn.
  apply String.eqb_neq in Hne. rewrite Hne.
  apply py_in_true in Hin. fold ui in Hin. rewrite Hin. cbn.
  rewrite <- app_assoc. repeat split.
Qed.

Lemma createSession_existing_name_witness :
  In "LOCAL - A" (_names (session_tabs (run [("A", Local)] initial)))
  /\ session_tabs (createSession "LOCAL - A" Network (run [("A", Local)] initial))
     = session_tabs (run [("A", Local)] initial).
Proof.
  split.
  - cbn. right. left. reflexivity.
  - apply (createSession_existing_name [("A", Local)] "LOCAL - A" Network).
    cbn. right. left. reflexivity.
Defined.

(** C2: the name of a session that was created is not refused when it is
    typed again. After a local session A has been created the tabs are named
    Welcome and LOCAL - A, so A is not among the names the callbacks test;
    a second request for A, local or network, adds a third tab, takes the
    focus and leaves the prompt empty: the size of the registry changes and
    the message that the name exists is not shown. *)
Theorem createSession_retyped_name :
  _names (session_tabs (run [("A", Local)] initial)) = ["Welcome"; "LOCAL - A"]
  /\ py_in "A" (_names (session_tabs (run [("A", Local)] initial))) = false
  /\ createSession "A" Local (run [("A", Local)] initial)
     = {| box_name_TextInput := {| value := ""; placeholder := "" |};
          session_tabs :=
            {| objects := [ ("Welcome", tab_1);
                            ("LOCAL - A", LDashboard_layout);
                            ("LOCAL - A", LDashboard_layout) ];
               active := 2 |};
          writes := writes (run [("A", Local)] initial)
                    ++ [ Append "LOCAL - A" LDashboard_layout; SetActive 2;
                         SetValue ""; SetPlaceholder "" ] |}
  /\ len (session_tabs (createSession "A" Network (run [("A", Local)] initial)))
     = S (len (session_tabs (run [("A", Local)] initial)))
  /\ placeholder
       (box_name_TextInput
          (createSession "A" Network (run [("A", Local)] initial)))
     <> "Name entered already exists. Please enter a different name.".
Proof.
  split; [reflexivity|].
  split; [reflexivity|].
  split; [reflexivity|].
  split; [reflexivity|].
  cbn. discriminate.
Qed.



(** C9: a request with the empty name, of either kind and in any state
    (also one in which a tab has the empty name, so the test for the empty
    name comes first), leaves the tabs alone, shows the prompt to enter a
    name, and assigns nothing to the text box. *)
Theorem createSession_empty_name :
  forall (ui : UI) (k : Kind),
    let ui' := createSession "" k ui in
    session_tabs ui' = session_tabs ui
    /\ value (box_name_TextInput ui') = ""
    /\ placeholder (box_name_TextInput ui')
       = "Please enter a name and try again."
    /\ writes ui'
       = (writes ui ++ [SetPlaceholder "Please enter a name and try again."])%list.
Proof.
  intros ui k ui'. subst ui'. unfold createSession.
  rewrite click_unfold. cbn. repeat split.
Qed.

(** The empty name is tested before membership: with a tab whose name is
    empty, the empty request still gets the prompt for a name, and the text
    box is not assigned. *)
Example empty_name_tested_first :
  let ui := {| box_name_TextInput := {| value := "x"; placeholder := "" |};
               session_tabs := {| objects := [("", tab_1)]; active := 0 |};
               writes := [] |} in
  createSession "" Local ui
  = {| box_name_TextInput :=
         {| value := ""; placeholder := "Please enter a name and try again." |};
       session_tabs := session_tabs ui;
       writes := [SetPlaceholder "Please enter a name and try again."] |}.
Proof. reflexivity. Qed.

End SessionTabs.

(** ** The launcher window *)

Section Launcher.

Import Supervisor.

(** A confirmed close ends in [sys.exit(0)], whatever the state of the
    server process: the join that follows a terminate always returns. *)
Lemma on_closing_confirmed_exits (s : Launcher) :
  snd (on_closing true s) = SystemExit 0.
Proof.
  unfold on_closing, do_join, do_terminate, called, destroy. cbn.
  destruct (panel_process s) as [d | n | c]; reflexivity.
Qed.

(** C7: with the server process alive, a confirmed close destroys the
    window, terminates the server without asking it first, waits for it
    without a timeout for as long as its teardown takes, and exits with
    status 0; a cancelled close returns to the main loop with the launcher,
    window and server included, exactly as it was. *)
Theorem on_closing_server_alive :
  forall (s : Launcher) (teardown : nat),
    panel_process s = Alive teardown ->
    on_closing true s
      = ({| window_open := false;
            panel_process := Exited (- SIGTERM);
            clock := clock s + teardown;
            calls := (calls s ++
                      [root_destroy; panel_process_is_alive;
                       panel_process_terminate; panel_process_join None;
                       sys_exit 0])%list |},
         SystemExit 0)
    /\ is_alive (panel_process (fst (on_closing true s))) = false
    /\ on_closing false s = (s, Returns)
    /\ is_alive (panel_process (fst (on_closing false s))) = true.
Proof.
  intros s teardown H.
  unfold on_closing, do_join, do_terminate, called, destroy. cbn.
  rewrite H. cbn. rewrite <- !app_assoc. cbn. repeat split.
Qed.

Lemma on_closing_server_alive_witness :
  panel_process serving = Alive 7
  /\ on_closing true serving
     = ({| window_open := false;
           panel_process := Exited (- SIGTERM);
           clock := 107;
           calls := [root_destroy; panel_process_is_alive;
                     panel_process_terminate; panel_process_join None;
                     sys_exit 0] |},
        SystemExit 0)
  /\ on_closing false serving = (serving, Returns).
Proof.
  split; [reflexivity|].
  split; apply (on_closing_server_alive serving 7); reflexivity.
Defined.

(** C10: with the server process already gone when the dialog is
    confirmed, the handler calls neither [terminate] nor [join], spends no
    time waiting, and exits with status 0; and a confirmed close exits with
    status 0 whatever the state of the server process is. *)
Theorem on_closing_server_gone :
  forall (s : Launcher) (exitcode : Z),
    panel_process s = Exited exitcode ->
    on_closing true s
      = ({| window_open := false;
            panel_process := Exited exitcode;
            clock := clock s;
            calls := (calls s ++
                      [root_destroy; panel_process_is_alive;
                       sys_exit 0])%list |},
         SystemExit 0)
    /\ forall p : Process,
         snd (on_closing true
                {| window_open := window_open s; panel_process := p;
                   clock := clock s; calls := calls s |})
         = SystemExit 0.
Proof.
  intros s exitcode H. split; [| intros p; apply on_closing_confirmed_exits].
  unfold on_closing, do_join, do_terminate, called, destroy. cbn.
  rewrite H. cbn. rewrite <- !app_assoc. reflexivity.
Qed.

Lemma on_closing_server_gone_witness :
  panel_process orphaned = Exited 1
  /\ on_closing true orphaned
     = ({| window_open := false; panel_process := Exited 1; clock := 100;
           calls := [root_destroy; panel_process_is_alive; sys_exit 0] |},
        SystemExit 0).
Proof.
  split; [reflexivity|].
  apply (on_closing_server_gone orphaned 1%Z). reflexivity.
Defined.

End Launcher.

(** ** Version 4 UUIDs *)

Section UuidFacts.

Import Uuid.
Local Open Scope Z_scope.










End UuidFacts.

(** ** [json.dumps] and the reader *)

Section JsonFacts.

Import Json.


Lemma length_append (a b : string) :
  String.length (a ++ b) = String.length a + String.length b.
Proof. induction a as [| x a IH]; cbn; [reflexivity | now rewrite IH]. Qed.








Lemma repr_int_cases (z : Z) :
  exists d : Decimal.uint,
    d <> Decimal.Nil
    /\ (repr_int z = NilEmpty.string_of_uint d
        \/ repr_int z = String "-" (NilEmpty.string_of_uint d)).
Proof.
  unfold repr_int.
  assert (N : forall p, Pos.to_uint p <> Decimal.Nil).
  { intros p E.
    assert (H : Pos.of_uint (Pos.to_uint p) = Npos p)
      by apply DecimalPos.Unsigned.of_to.
    rewrite E in H. discriminate H. }
  destruct z as [| p | p]; cbn.
  - exists (Decimal.D0 Decimal.Nil). split; [discriminate | now left].
  - exists (Pos.to_uint p). split; [apply N|]. left.
    specialize (N p). now destruct (Pos.to_uint p).
  - exists (Pos.to_uint p). split; [apply N|]. right.
    specialize (N p). now destruct (Pos.to_uint p).
Qed.









(** The reader is no rubber stamp: unquoted keys, numbers with leading
    zeros and truncated texts are turned down. *)
Example loads_rejects :
  loads "{port: 6229}" = None
  /\ loads (dumps [("port", Int 6229)] ++ "}") = None
  /\ loads (String "{" (String dquote (String "p" (String dquote ": 007}"))))
     = None
  /\ loads (String "{" (String dquote (String "p" (String dquote ": 7}"))))
     = Some [("p", Int 7)].
Proof. repeat split. Qed.

End JsonFacts.

(** ** The broadcast service *)

Section BroadcastFacts.

Import Broadcast.

Variables UDP_PORT HTTP_PORT : Z.

Local Ltac svc_simpl :=
  cbn [sent clock entropy_reads open_sockets stop_event log sleep logging
       sendto set_stop_event close socket_opened snd fst].

Local Tactic Notation "svc_simpl" "in" hyp(H) :=
  cbn [sent clock entropy_reads open_sockets stop_event log sleep logging
       sendto set_stop_event close socket_opened snd fst] in H.

(** What the loop leaves behind: the datagrams it appended, each at a
    time at which it read the stop flag as clear, and nothing else but the
    clock and the log. *)
Lemma send_loop_sent (w : World) (key ip : string) (fuel : nat) :
  forall (i : nat) (s : Service),
    let r := send_loop UDP_PORT HTTP_PORT fuel w key ip i s in
    exists times : list nat,
      sent (snd r) = (sent s ++ map (announcement UDP_PORT HTTP_PORT key ip) times)%list
      /\ Forall (fun t => clock s <= t /\ stop_requested w t = false) times
      /\ entropy_reads (snd r) = entropy_reads s
      /\ open_sockets (snd r) = open_sockets s.
Proof.
  induction fuel as [| fuel IH]; intros i s; cbn [send_loop].
  - exists []. cbn. rewrite app_nil_r. auto.
  - unfold observe. cbn [stop_event set_stop_event].
    destruct (stop_event s || stop_requested w (clock s)) eqn:E.
    + exists []. cbn. rewrite app_nil_r. auto.
    + apply orb_false_iff in E. destruct E as [_ E].
      destruct (sendto_error w i) as [e |].
      * destruct (is_Exception e).
        -- match goal with
           | |- context [send_loop _ _ fuel w key ip (S i) ?s1] =>
               destruct (IH (S i) s1) as [times [H1 [H2 [H3 H4]]]]
           end.
           exists times. svc_simpl in H1. svc_simpl in H2.
           svc_simpl in H3. svc_simpl in H4. auto.
        -- exists []. cbn. rewrite app_nil_r. auto.
      * match goal with
        | |- context [send_loop _ _ fuel w key ip (S i) ?s1] =>
            destruct (IH (S i) s1) as [times [H1 [H2 [H3 H4]]]]
        end.
        exists (clock s :: times). svc_simpl in H1. svc_simpl in H2.
        svc_simpl in H3. svc_simpl in H4.
        rewrite H1, <- app_assoc. cbn [map app]. repeat split; auto.
        constructor; [split; [lia | exact E]|].
        eapply Forall_impl; [| exact H2]. cbn beta. intros t [Ht Hs].
        split; [lia | exact Hs].
Qed.

Lemma send_loop_completion (w : World) (key ip : string) :
  (forall i e, sendto_error w i = Some e -> is_Exception e = true) ->
  forall (fuel i : nat) (s : Service),
    fst (send_loop UDP_PORT HTTP_PORT fuel w key ip i s) = Normal
    \/ fst (send_loop UDP_PORT HTTP_PORT fuel w key ip i s) = Running.
Proof.
  intros Hsend. induction fuel as [| fuel IH]; intros i s; cbn [send_loop].
  - now right.
  - destruct (stop_event (observe w s)); [now left|].
    destruct (sendto_error w i) as [e |] eqn:Hi; [| apply IH].
    rewrite (Hsend i e Hi). apply IH.
Qed.

(** Once the flag reads as set at every time after [T], the loop never
    lets the clock pass [T + 5]. *)
Lemma send_loop_clock (w : World) (key ip : string) (T : nat) :
  (forall t, T < t -> stop_requested w t = true) ->
  forall (fuel i : nat) (s : Service),
    clock s <= T + 5 ->
    clock (snd (send_loop UDP_PORT HTTP_PORT fuel w key ip i s)) <= T + 5.
Proof.
  intros Hstop. induction fuel as [| fuel IH]; intros i s Hs;
    cbn [send_loop]; [exact Hs|].
  unfold observe. cbn [stop_event set_stop_event].
  destruct (stop_event s || stop_requested w (clock s)) eqn:E; [exact Hs|].
  apply orb_false_iff in E. destruct E as [_ E].
  assert (Hc : clock s <= T).
  { destruct (Nat.le_gt_cases (clock s) T) as [H | H]; [exact H|].
    rewrite (Hstop _ H) in E. discriminate E. }
  destruct (sendto_error w i) as [e |].
  - destruct (is_Exception e); [apply IH; exact Hs | exact Hs].
  - apply IH. svc_simpl. lia.
Qed.

(** With the flag set after [T] and [sendto] failing only in the first [N]
    rounds, the loop is left within [N - i + (T + 1 - clock)] rounds. *)
Lemma send_loop_exits (w : World) (key ip : string) (T N : nat) :
  (forall t, T < t -> stop_requested w t = true) ->
  (forall j, N <= j -> sendto_error w j = None) ->
  forall (fuel i : nat) (s : Service),
    (N - i) + (T + 1 - clock s) < fuel ->
    fst (send_loop UDP_PORT HTTP_PORT fuel w key ip i s) <> Running.
Proof.
  intros Hstop Hsend. induction fuel as [| fuel IH]; intros i s Hfuel;
    [lia|]. cbn [send_loop].
  unfold observe. cbn [stop_event set_stop_event].
  destruct (stop_event s || stop_requested w (clock s)) eqn:E;
    [discriminate|].
  apply orb_false_iff in E. destruct E as [_ E].
  assert (Hc : clock s <= T).
  { destruct (Nat.le_gt_cases (clock s) T) as [H | H]; [exact H|].
    rewrite (Hstop _ H) in E. discriminate E. }
  destruct (sendto_error w i) as [e |] eqn:Hi.
  - assert (Hlt : i < N).
    { destruct (Nat.le_gt_cases N i) as [H | H]; [| exact H].
      rewrite (Hsend _ H) in Hi. discriminate Hi. }
    destruct (is_Exception e); [| discriminate].
    apply IH. svc_simpl. lia.
  - apply IH. svc_simpl. lia.
Qed.

Lemma run_service_sent (w : World) (fuel : nat) (s : Service) (ip : string) :
  gethostbyname w = inr ip ->
  let key := Uuid.str (Uuid.uuid4 (urandom16 w (entropy_reads s))) in
  let r := run_service UDP_PORT HTTP_PORT fuel w s in
  exists times : list nat,
    sent (snd r) = (sent s ++ map (announcement UDP_PORT HTTP_PORT key ip) times)%list
    /\ Forall (fun t => clock s <= t /\ stop_requested w t = false) times
    /\ entropy_reads (snd r) = S (entropy_reads s).
Proof.
  intros Hhost key r. subst r.
  unfold run_service, str_uuid4, try_block. rewrite Hhost.
  assert (Q : exists times : list nat,
            sent s = (sent s ++ map (announcement UDP_PORT HTTP_PORT key ip) times)%list
            /\ Forall (fun t => clock s <= t /\ stop_requested w t = false) times
            /\ S (entropy_reads s) = S (entropy_reads s)).
  { exists []. cbn. rewrite app_nil_r. auto. }
  destruct (socket_error w) as [e1 |];
    [destruct (is_Exception e1); destruct (stop_event s); exact Q|].
  destruct (setsockopt_error w) as [e2 |];
    [destruct (is_Exception e2); destruct (stop_event s); exact Q|].
  destruct (bind_error w) as [e3 |];
    [destruct (is_Exception e3); destruct (stop_event s); exact Q|].
  match goal with
  | |- context [send_loop _ _ fuel w ?k ip 0 ?s1] =>
      destruct (send_loop_sent w k ip fuel 0 s1) as [times [H1 [H2 H3]]];
      destruct (send_loop UDP_PORT HTTP_PORT fuel w k ip 0 s1) as [c s2]
  end.
  exists times.
  assert (R : sent s2 = (sent s ++ map (announcement UDP_PORT HTTP_PORT key ip) times)%list
              /\ Forall (fun t => clock s <= t /\ stop_requested w t = false) times
              /\ entropy_reads s2 = S (entropy_reads s)).
  { destruct (stop_event s); exact (conj H1 (conj H2 (proj1 H3))). }
  destruct c as [| e |]; [| destruct (is_Exception e) |]; exact R.
Qed.

Lemma run_service_clock (w : World) (fuel : nat) (s : Service) (T : nat) :
  (forall t, T < t -> stop_requested w t = true) ->
  clock s <= T + 5 ->
  clock (snd (run_service UDP_PORT HTTP_PORT fuel w s)) <= T + 5.
Proof.
  intros Hstop Hs.
  unfold run_service, str_uuid4, try_block.
  assert (Q : clock s <= T + 5) by exact Hs.
  destruct (gethostbyname w) as [e0 | ip]; [destruct (stop_event s); exact Q|].
  destruct (socket_error w) as [e1 |];
    [destruct (is_Exception e1); destruct (stop_event s); exact Q|].
  destruct (setsockopt_error w) as [e2 |];
    [destruct (is_Exception e2); destruct (stop_event s); exact Q|].
  destruct (bind_error w) as [e3 |];
    [destruct (is_Exception e3); destruct (stop_event s); exact Q|].
  match goal with
  | |- context [send_loop _ _ fuel w ?k ip 0 ?s1] =>
      assert (H : clock s1 <= T + 5) by (destruct (stop_event s); exact Hs);
      pose proof (send_loop_clock w k ip T Hstop fuel 0 s1 H) as R;
      destruct (send_loop UDP_PORT HTTP_PORT fuel w k ip 0 s1) as [c s2]
  end.
  cbn [snd] in R.
  destruct c as [| e |]; [| destruct (is_Exception e) |]; exact R.
Qed.

Lemma run_service_exits (w : World) (fuel : nat) (s : Service) (T N : nat) :
  (forall t, T < t -> stop_requested w t = true) ->
  (forall j, N <= j -> sendto_error w j = None) ->
  N + (T + 1 - clock s) < fuel ->
  fst (run_service UDP_PORT HTTP_PORT fuel w s) <> Running.
Proof.
  intros Hstop Hsend Hfuel.
  unfold run_service, str_uuid4, try_block.
  destruct (gethostbyname w) as [e0 | ip]; [discriminate|].
  destruct (socket_error w) as [e1 |];
    [destruct (is_Exception e1); discriminate|].
  destruct (setsockopt_error w) as [e2 |];
    [destruct (is_Exception e2); discriminate|].
  destruct (bind_error w) as [e3 |];
    [destruct (is_Exception e3); discriminate|].
  match goal with
  | |- context [send_loop _ _ fuel w ?k ip 0 ?s1] =>
      assert (H : (N - 0) + (T + 1 - clock s1) < fuel)
        by (destruct (stop_event s); svc_simpl; lia);
      pose proof (send_loop_exits w k ip T N Hstop Hsend fuel 0 s1 H) as R;
      destruct (send_loop UDP_PORT HTTP_PORT fuel w k ip 0 s1) as [c s2]
  end.
  cbn [fst] in R.
  destruct c as [| e |]; [| destruct (is_Exception e) |];
    try discriminate. now elim R.
Qed.

(** When [socket.socket] succeeds and nothing but [Exception]s are raised,
    a run that ends returns normally, with every socket it opened closed
    again and the closing message as the last log record. *)
Lemma run_service_releases_socket (w : World) (fuel : nat) (s : Service)
    (ip : string) :
  gethostbyname w = inr ip ->
  socket_error w = None ->
  (forall e, setsockopt_error w = Some e -> is_Exception e = true) ->
  (forall e, bind_error w = Some e -> is_Exception e = true) ->
  (forall i e, sendto_error w i = Some e -> is_Exception e = true) ->
  let r := run_service UDP_PORT HTTP_PORT fuel w s in
  fst r = Running
  \/ (fst r = Normal
      /\ open_sockets (snd r) = open_sockets s
      /\ exists l, log (snd r) = (l ++ [(INFO, Broadcast_service_stopped)])%list).
Proof.
  intros Hhost Hsock Hopt Hbind Hsend r. subst r.
  unfold run_service, str_uuid4, try_block. rewrite Hhost, Hsock.
  destruct (setsockopt_error w) as [e2 |].
  { rewrite (Hopt e2 eq_refl). right. svc_simpl.
    destruct (stop_event s); eauto. }
  destruct (bind_error w) as [e3 |].
  { rewrite (Hbind e3 eq_refl). right. svc_simpl.
    destruct (stop_event s); eauto. }
  match goal with
  | |- context [send_loop _ _ fuel w ?k ip 0 ?s1] =>
      destruct (send_loop_sent w k ip fuel 0 s1) as [times [_ [_ [_ H4]]]];
      assert (L : fst (send_loop UDP_PORT HTTP_PORT fuel w k ip 0 s1) = Normal
                  \/ fst (send_loop UDP_PORT HTTP_PORT fuel w k ip 0 s1) = Running)
        by (apply send_loop_completion; exact Hsend);
      destruct (send_loop UDP_PORT HTTP_PORT fuel w k ip 0 s1) as [c s2]
  end.
  cbn [fst snd] in L, H4.
  destruct L as [-> | ->]; [right | left; reflexivity].
  svc_simpl. rewrite H4. destruct (stop_event s); svc_simpl; eauto.
Qed.

Lemma run_service_unresolved_host (w : World) (fuel : nat) (s : Service)
    (e : Exn) :
  gethostbyname w = inl e ->
  fst (run_service UDP_PORT HTTP_PORT fuel w s) = Raised e
  /\ sent (snd (run_service UDP_PORT HTTP_PORT fuel w s)) = sent s.
Proof.
  intros Hhost. unfold run_service, str_uuid4. rewrite Hhost.
  destruct (stop_event s); split; reflexivity.
Qed.



(** C4: when [stop_event] is set at time [T] during a run, so that it reads
    as set at every later time, the run sends no datagram after [T], its
    clock never passes [T + 5], one sleep of the send interval at most
    lying between the request and the test of the flag, and, unless [sendto]
    keeps failing for ever, the run ends. *)
Theorem stop_latency :
  forall (fuel : nat) (w : World) (s : Service) (T : nat),
    clock s <= T ->
    (forall t, T < t -> stop_requested w t = true) ->
    let r := run_service UDP_PORT HTTP_PORT fuel w s in
    (exists new, sent (snd r) = (sent s ++ new)%list
                 /\ Forall (fun d => sent_at d <= T) new)
    /\ clock (snd r) <= T + 5
    /\ (forall N, (forall j, N <= j -> sendto_error w j = None) ->
                  N + (T + 1 - clock s) < fuel ->
                  fst r <> Running).
Proof.
  intros fuel w s T Hs Hstop r. subst r. split; [| split].
  - destruct (gethostbyname w) as [e | ip] eqn:Hhost.
    + exists []. rewrite app_nil_r.
      split; [apply (run_service_unresolved_host w fuel s e Hhost) | constructor].
    + destruct (run_service_sent w fuel s ip Hhost) as [times [H1 [H2 _]]].
      eexists. split; [exact H1|].
      apply Forall_forall. intros d Hd.
      apply in_map_iff in Hd. destruct Hd as [t [<- Ht]]. cbn [sent_at announcement].
      rewrite Forall_forall in H2. destruct (H2 t Ht) as [_ Hclear].
      destruct (Nat.le_gt_cases t T) as [H | H]; [exact H|].
      rewrite (Hstop t H) in Hclear. discriminate Hclear.
  - apply run_service_clock; [exact Hstop | lia].
  - intros N Hsend Hfuel. now apply (run_service_exits w fuel s T N).
Qed.

End BroadcastFacts.


(** Twelve seconds of service with the default ports: three datagrams, at
    times 0, 5 and 10, with one key and the HTTP port 6229. *)
Example twelve_seconds :
  map (fun d => (Broadcast.sent_at d, Broadcast.dest_port d,
                 Json.loads (Json.decode_utf8 (Broadcast.data d))))
      (Broadcast.sent
         (snd (Broadcast.run_service 7899 6229 10 (Broadcast.calm 12)
                 Broadcast.idle)))
  = map (fun t =>
           (t, 7899%Z,
            Some [ ("message", Json.Str "REACHER_DEVICE_DISCOVERY");
                   ("key", Json.Str "01234567-89ab-4def-8123-456789abcdef");
                   ("name", Json.Str "REACHER_Device");
                   ("address", Json.Str "192.168.1.20");
                   ("port", Json.Int 6229) ]))
        [0; 5; 10].
Proof. vm_compute. reflexivity. Qed.

Lemma stop_latency_witness :
  Broadcast.clock Broadcast.idle <= 10
  /\ (forall t, 10 < t -> Broadcast.stop_requested (Broadcast.calm 10) t = true)
  /\ Broadcast.clock
       (snd (Broadcast.run_service 7899 6229 10 (Broadcast.calm 10)
               Broadcast.idle)) <= 10 + 5.
Proof.
  assert (H : forall t, 10 < t ->
                Broadcast.stop_requested (Broadcast.calm 10) t = true).
  { intros t Ht. cbn [Broadcast.stop_requested Broadcast.calm].
    apply Nat.ltb_lt. exact Ht. }
  split; [cbn; lia | split; [exact H|]].
  apply (stop_latency 7899 6229 10 (Broadcast.calm 10) Broadcast.idle 10).
  - cbn. lia.
  - exact H.
Defined.

(** The bound is reached: a request at time 10, just after the flag was
    read, lets the loop send at 10 and leave at 15. *)
Example latency_bound_reached :
  let r := Broadcast.run_service 7899 6229 10 (Broadcast.calm 10)
             Broadcast.idle in
  fst r = Broadcast.Normal
  /\ map Broadcast.sent_at (Broadcast.sent (snd r)) = [0; 5; 10]
  /\ Broadcast.clock (snd r) = 15.
Proof. vm_compute. repeat split. Qed.

Section Shutdown.

Import Broadcast.

(** C5: when [socket.socket] itself fails, the handler logs the failure and
    the [finally] clause then reads [server], which was never bound: the run
    ends in an [UnboundLocalError] that leaves [run_service], and the closing
    message is not logged. *)
Theorem run_service_without_socket :
  forall (UDP_PORT HTTP_PORT : Z) (fuel T : nat),
    let r := run_service UDP_PORT HTTP_PORT fuel (out_of_descriptors T) idle in
    fst r = Raised (UnboundLocalError "server")
    /\ log (snd r)
       = [ (INFO, Starting_broadcast_service);
           (INFO, Generated_unique_key "01234567-89ab-4def-8123-456789abcdef");
           (ERROR, Broadcast_service_failed (OSError "Too many open files")) ]
    /\ ~ In (INFO, Broadcast_service_stopped) (log (snd r)).
Proof.
  intros UDP_PORT HTTP_PORT fuel T r. subst r.
  split; [reflexivity | split; [reflexivity|]].
  cbn. intros [H | [H | [H | []]]]; discriminate H.
Qed.

(** C8: on SIGINT as on SIGTERM the handler logs, sets [stop_event] and
    raises [SystemExit(0)], which ends the process with status 0; the
    broadcast thread is left in whatever state it was in and the clock has
    not moved. *)
Theorem signal_stops_and_exits :
  forall (p : Process),
    let stopped :=
      {| service := set_stop_event true
                      (logging INFO Shutting_down_services (service p));
         broadcast_thread := broadcast_thread p;
         exit_status := Some 0%Z |} in
    deliver SIGINT p = stopped
    /\ deliver SIGTERM p = stopped
    /\ stop_event (service stopped) = true
    /\ clock (service stopped) = clock (service p).
Proof.
  intros p stopped. repeat split.
Qed.

End Shutdown.

(** ** More on the session tabs *)

Section SessionTabsInvariants.

Import Dashboard.

Lemma label_longer (k : Kind) (name : string) : label k name <> name.
Proof.
  intros E. apply (f_equal String.length) in E.
  destruct k; unfold label in E; rewrite length_append in E; cbn in E; lia.
Qed.

Lemma objects_not_extended (A : Type) (l : list A) (x : A) : (l ++ [x])%list <> l.
Proof.
  intros E. apply (f_equal (@List.length A)) in E.
  rewrite length_app in E. cbn in E. lia.
Qed.

(** X1: a request leaves the tabs as they are exactly when the name is
    empty or is the name of a tab; every other request changes them. *)
Theorem createSession_rejects_iff :
  forall (ui : UI) (name : string) (k : Kind),
    session_tabs (createSession name k ui) = session_tabs ui
    <-> name = "" \/ In name (_names (session_tabs ui)).
Proof.
  intros ui name k. unfold createSession. rewrite click_unfold. cbn.
  destruct (String.eqb_spec name "") as [-> | Hne].
  - split; [now left | reflexivity].
  - destruct (py_in name (_names (session_tabs ui))) eqn:Hin.
    + apply py_in_true in Hin. split; [now right | reflexivity].
    + apply py_in_false in Hin. cbn. split.
      * intros E. apply (f_equal objects) in E. cbn in E.
        now apply objects_not_extended in E.
      * intros [H | H]; [now elim Hne | now elim Hin].
Qed.

(** X2: whatever the state and the button, the text box is empty when the
    callback returns. *)
Theorem click_leaves_box_empty :
  forall (ui : UI) (k : Kind), value (box_name_TextInput (click k ui)) = "".
Proof.
  intros ui k. rewrite click_unfold.
  destruct (String.eqb_spec (value (box_name_TextInput ui)) "") as [E | _].
  - exact E.
  - destruct (py_in _ _); reflexivity.
Qed.

Lemma createSession_extends (name : string) (k : Kind) (ui : UI) :
  exists rest,
    objects (session_tabs (createSession name k ui))
    = (objects (session_tabs ui) ++ rest)%list
    /\ List.length rest <= 1.
Proof.
  unfold createSession. rewrite click_unfold. cbn.
  destruct (name =? "");
    [exists []; rewrite app_nil_r; cbn; split; [reflexivity | lia]|].
  destruct (py_in name _);
    [exists []; rewrite app_nil_r; cbn; split; [reflexivity | lia]|].
  cbn. eexists. split; [reflexivity | cbn; lia].
Qed.

(** X3: no sequence of requests removes, renames or reorders a tab: the
    tabs before are a prefix of the tabs after, and each request adds one tab
    at most. *)
Theorem run_extends :
  forall (calls : list (string * Kind)) (ui : UI),
    exists rest,
      objects (session_tabs (run calls ui))
      = (objects (session_tabs ui) ++ rest)%list
      /\ List.length rest <= List.length calls.
Proof.
  induction calls as [| [name k] calls IH]; intros ui.
  - exists []. rewrite app_nil_r. split; [reflexivity | cbn; lia].
  - cbn [run fold_left fst snd].
    destruct (createSession_extends name k ui) as [r1 [E1 L1]].
    destruct (IH (createSession name k ui)) as [r2 [E2 L2]].
    exists (r1 ++ r2)%list. unfold run in E2. rewrite E2, E1, <- app_assoc.
    split; [reflexivity|]. rewrite length_app. cbn [List.length]. lia.
Qed.

Lemma createSession_tab_origin (name : string) (k : Kind) (ui : UI)
    (n : string) (l : Layout) :
  In (n, l) (objects (session_tabs (createSession name k ui))) ->
  In (n, l) (objects (session_tabs ui))
  \/ (name <> "" /\ n = label k name /\ l = layout k).
Proof.
  unfold createSession. rewrite click_unfold. cbn.
  destruct (String.eqb_spec name "") as [-> | Hne]; [now left|].
  destruct (py_in name _); [now left|].
  cbn. rewrite in_app_iff. cbn. intros [H | [H | []]]; [now left|].
  right. inversion H. auto.
Qed.

Lemma run_tab_origin (calls : list (string * Kind)) :
  forall (ui : UI) (n : string) (l : Layout),
    In (n, l) (objects (session_tabs (run calls ui))) ->
    In (n, l) (objects (session_tabs ui))
    \/ exists name k,
         In (name, k) calls /\ name <> "" /\ n = label k name /\ l = layout k.
Proof.
  induction calls as [| [name k] calls IH]; intros ui n l H.
  - now left.
  - cbn [run fold_left fst snd] in H.
    destruct (IH _ n l H) as [H1 | [x [kx [Hin Hx]]]].
    + destruct (createSession_tab_origin name k ui n l H1) as [H2 | H2].
      * now left.
      * right. exists name, k. split; [now left | exact H2].
    + right. exists x, kx. split; [now right | exact Hx].
Qed.

(** X4: every tab there ever is, is the welcome tab or the tab of one of
    the requests made: its label is the prefix of the kind followed by the
    non-empty name that was typed, and its content is the dashboard of that
    kind. *)
Theorem run_tabs_come_from_requests :
  forall (calls : list (string * Kind)) (n : string) (l : Layout),
    In (n, l) (objects (session_tabs (run calls initial))) ->
    (n, l) = ("Welcome", tab_1)
    \/ exists name k,
         In (name, k) calls /\ name <> "" /\ n = label k name /\ l = layout k.
Proof.
  intros calls n l H.
  destruct (run_tab_origin calls initial n l H) as [[H1 | []] | H1].
  - left. now symmetry.
  - now right.
Qed.

Lemma run_tabs_come_from_requests_witness :
  In ("NETWORK - B", Dashboard_layout)
     (objects (session_tabs (run [("A", Local); ("B", Network)] initial)))
  /\ (("NETWORK - B", Dashboard_layout) = ("Welcome", tab_1)
      \/ exists name k,
           In (name, k) [("A", Local); ("B", Network)] /\ name <> ""
           /\ "NETWORK - B" = label k name /\ Dashboard_layout = layout k).
Proof.
  assert (H : In ("NETWORK - B", Dashboard_layout)
                (objects (session_tabs
                   (run [("A", Local); ("B", Network)] initial)))).
  { cbn. right. right. left. reflexivity. }
  split; [exact H|].
  exact (run_tabs_come_from_requests
           [("A", Local); ("B", Network)] "NETWORK - B" Dashboard_layout H).
Defined.

(** X5: a callback never leaves the focus on a tab that does not exist: if
    the focused index was within the tabs before, it is within them after. *)
Theorem click_keeps_focus_valid :
  forall (ui : UI) (k : Kind),
    active (session_tabs ui) < len (session_tabs ui) ->
    active (session_tabs (click k ui)) < len (session_tabs (click k ui)).
Proof.
  intros ui k H. rewrite click_unfold.
  destruct (value (box_name_TextInput ui) =? ""); [exact H|].
  destruct (py_in _ _); [exact H|].
  unfold len. cbn. rewrite length_app. cbn. lia.
Qed.

Lemma click_keeps_focus_valid_witness :
  active (session_tabs (type_name "A" initial))
    < len (session_tabs (type_name "A" initial))
  /\ active (session_tabs (click Local (type_name "A" initial)))
     < len (session_tabs (click Local (type_name "A" initial))).
Proof.
  assert (H : active (session_tabs (type_name "A" initial))
              < len (session_tabs (type_name "A" initial))) by (cbn; lia).
  split; [exact H|].
  exact (click_keeps_focus_valid (type_name "A" initial) Local H).
Defined.

(** X6: a fresh name can be used again at once: the second request for it,
    for the same kind or the other, adds a second tab, so that after two
    requests of one kind two tabs carry the same label. *)
Theorem createSession_twice :
  forall (ui : UI) (name : string) (k k' : Kind),
    name <> "" ->
    ~ In name (_names (session_tabs ui)) ->
    _names (session_tabs (createSession name k' (createSession name k ui)))
    = (_names (session_tabs ui) ++ [label k name; label k' name])%list.
Proof.
  intros ui name k k' Hne Hnotin.
  assert (S1 : _names (session_tabs (createSession name k ui))
               = (_names (session_tabs ui) ++ [label k name])%list).
  { unfold createSession. rewrite click_unfold. cbn.
    apply String.eqb_neq in Hne. rewrite Hne.
    apply py_in_false in Hnotin. rewrite Hnotin. cbn.
    unfold _names. cbn. now rewrite map_app. }
  assert (Hnotin' : ~ In name (_names (session_tabs (createSession name k ui)))).
  { rewrite S1, in_app_iff. cbn. intros [H | [H | []]]; [now apply Hnotin|].
    now apply (label_longer k name). }
  unfold createSession at 1. rewrite click_unfold. cbn.
  apply String.eqb_neq in Hne. rewrite Hne.
  apply py_in_false in Hnotin'. rewrite Hnotin'. cbn.
  unfold _names in *. cbn. rewrite map_app, S1, <- app_assoc. reflexivity.
Qed.

Lemma createSession_twice_witness :
  "B" <> ""
  /\ ~ In "B" (_names (session_tabs (createSession "A" Local initial)))
  /\ _names (session_tabs
       (createSession "B" Network
          (createSession "B" Network (createSession "A" Local initial))))
     = ["Welcome"; "LOCAL - A"; "NETWORK - B"; "NETWORK - B"].
Proof.
  assert (H1 : "B" <> "") by discriminate.
  assert (H2 : ~ In "B" (_names (session_tabs (createSession "A" Local initial)))).
  { cbn. intros [H | [H | []]]; discriminate H. }
  split; [exact H1 | split; [exact H2|]].
  exact (createSession_twice (createSession "A" Local initial) "B"
           Network Network H1 H2).
Defined.

End SessionTabsInvariants.

(** ** More on the launcher window *)

Section LauncherInvariants.

Import Supervisor.

Lemma close_requests_cancelled (n : nat) (answers : list bool) (s : Launcher) :
  close_requests (repeat false n ++ answers) s = close_requests answers s.
Proof. induction n as [| n IH]; [reflexivity | exact IH]. Qed.

(** X8: close requests that the user cancels leave no trace: any number of
    them followed by a confirmed one acts as the confirmed one alone, and
    what is requested after the confirmed one is never handled. *)
Theorem close_requests_until_confirmed :
  forall (n : nat) (later : list bool) (s : Launcher),
    close_requests (repeat false n ++ true :: later) s = on_closing true s.
Proof.
  intros n later s. rewrite close_requests_cancelled. cbn [close_requests].
  pose proof (on_closing_confirmed_exits s) as H.
  destruct (on_closing true s) as [s' c]. cbn in H. now subst c.
Qed.

End LauncherInvariants.

(** ** More on the broadcast service *)

Section BroadcastInvariants.

Import Broadcast.

Variables UDP_PORT HTTP_PORT : Z.

Local Ltac svc :=
  cbn [sent clock entropy_reads open_sockets stop_event log sleep logging
       sendto set_stop_event close socket_opened observe snd fst].

(** The times [c], [c + 5], [c + 10], ... of [n] sends in a row. *)
Lemma every_five_shift (c n : nat) :
  (c :: map (fun k => c + 5 + 5 * k) (seq 0 n))%list
  = map (fun k => c + 5 * k) (seq 0 (S n)).
Proof.
  cbn [seq map]. rewrite <- seq_shift, map_map. f_equal; [lia|].
  apply map_ext. intros k. lia.
Qed.

Lemma send_loop_cadence (w : World) (key ip : string) (fuel : nat) :
  forall (i : nat) (s : Service),
    let r := send_loop UDP_PORT HTTP_PORT fuel w key ip i s in
    exists n : nat,
      sent (snd r)
      = (sent s ++ map (announcement UDP_PORT HTTP_PORT key ip)
                       (map (fun k => clock s + 5 * k) (seq 0 n)))%list
      /\ clock (snd r) = clock s + 5 * n.
Proof.
  induction fuel as [| fuel IH]; intros i s; cbn [send_loop].
  - exists 0. svc. cbn. rewrite app_nil_r. split; [reflexivity | lia].
  - unfold observe. cbn [stop_event set_stop_event].
    destruct (stop_event s || stop_requested w (clock s)).
    + exists 0. svc. cbn. rewrite app_nil_r. split; [reflexivity | lia].
    + destruct (sendto_error w i) as [e |].
      * destruct (is_Exception e).
        -- match goal with
           | |- context [send_loop _ _ fuel w key ip (S i) ?s1] =>
               destruct (IH (S i) s1) as [n [H1 H2]]
           end.
           exists n. cbn [sent clock logging set_stop_event] in H1, H2. auto.
        -- exists 0. svc. cbn. rewrite app_nil_r. split; [reflexivity | lia].
      * match goal with
        | |- context [send_loop _ _ fuel w key ip (S i) ?s1] =>
            destruct (IH (S i) s1) as [n [H1 H2]]
        end.
        exists (S n).
        cbn [sent clock logging set_stop_event sleep sendto] in H1, H2.
        rewrite H1, H2, <- app_assoc, <- every_five_shift.
        split; [reflexivity | lia].
Qed.

(** X9: the datagrams of a run leave at the clock of its start and then
    every 5 units, the same bytes each time; a failed [sendto] costs no time,
    so the clock of the run is always the start plus 5 per datagram sent. *)
Theorem run_service_cadence :
  forall (fuel : nat) (w : World) (s : Service),
    let r := run_service UDP_PORT HTTP_PORT fuel w s in
    exists (n : nat) (bytes : list Byte.byte),
      sent (snd r)
      = (sent s
         ++ map (fun k => {| sent_at := clock s + 5 * k;
                             dest_port := UDP_PORT;
                             data := bytes |}) (seq 0 n))%list
      /\ clock (snd r) = clock s + 5 * n.
Proof.
  intros fuel w s r. subst r.
  assert (Q0 : forall bytes,
             sent s
             = (sent s
                ++ map (fun k => {| sent_at := clock s + 5 * k;
                                    dest_port := UDP_PORT;
                                    data := bytes |}) (seq 0 0))%list
             /\ clock s = clock s + 5 * 0).
  { intros bytes. cbn. rewrite app_nil_r. split; [reflexivity | lia]. }
  unfold run_service, str_uuid4, try_block.
  destruct (stop_event s);
    (destruct (gethostbyname w) as [e0 | ip]; [exists 0, []; exact (Q0 [])|]);
    (destruct (socket_error w) as [e1 |];
       [exists 0, []; destruct (is_Exception e1); exact (Q0 [])|]);
    (destruct (setsockopt_error w) as [e2 |];
       [exists 0, []; destruct (is_Exception e2); exact (Q0 [])|]);
    (destruct (bind_error w) as [e3 |];
       [exists 0, []; destruct (is_Exception e3); exact (Q0 [])|]);
    match goal with
    | |- context [send_loop _ _ fuel w ?k ip 0 ?s1] =>
        destruct (send_loop_cadence w k ip fuel 0 s1) as [n [H1 H2]];
        destruct (send_loop UDP_PORT HTTP_PORT fuel w k ip 0 s1) as [c s2];
        exists n, (Json.encode_utf8 (Json.dumps (payload HTTP_PORT k ip)))
    end;
    cbn [snd] in H1, H2; rewrite map_map in H1;
    (destruct c as [| e |]; [| destruct (is_Exception e) |]);
    exact (conj H1 H2).
Qed.

(** X10: a run does not depend on the value of the stop flag at its start:
    a stop requested before the run begins is forgotten. *)
Theorem run_service_forgets_earlier_stop :
  forall (fuel : nat) (w : World) (s : Service) (b b' : bool),
    run_service UDP_PORT HTTP_PORT fuel w (set_stop_event b s)
    = run_service UDP_PORT HTTP_PORT fuel w (set_stop_event b' s).
Proof.
  intros fuel w s b b'. unfold run_service.
  destruct b, b'; reflexivity.
Qed.

Lemma send_loop_normal_flag (w : World) (key ip : string) (fuel : nat) :
  forall (i : nat) (s : Service),
    fst (send_loop UDP_PORT HTTP_PORT fuel w key ip i s) = Normal ->
    stop_event (snd (send_loop UDP_PORT HTTP_PORT fuel w key ip i s)) = true.
Proof.
  induction fuel as [| fuel IH]; intros i s; cbn [send_loop];
    [discriminate|].
  unfold observe. cbn [stop_event set_stop_event].
  destruct (stop_event s || stop_requested w (clock s)); [reflexivity|].
  destruct (sendto_error w i) as [e |]; [| apply IH].
  destruct (is_Exception e); [apply IH | discriminate].
Qed.

Lemma send_loop_contains_exceptions (w : World) (key ip : string) (fuel : nat) :
  forall (i : nat) (s : Service) (e : Exn),
    fst (send_loop UDP_PORT HTTP_PORT fuel w key ip i s) = Raised e ->
    is_Exception e = false.
Proof.
  induction fuel as [| fuel IH]; intros i s e; cbn [send_loop];
    [discriminate|].
  destruct (stop_event (observe w s)); [discriminate|].
  destruct (sendto_error w i) as [e' |]; [| apply IH].
  destruct (is_Exception e') eqn:E; [apply IH|].
  cbn [fst]. intros H. inversion H. now subst e'.
Qed.

(** X11: once the socket is set up, a run returns normally only after it
    has read the stop flag as set. *)
Theorem run_service_returns_when_stopped :
  forall (fuel : nat) (w : World) (s : Service) (ip : string),
    gethostbyname w = inr ip ->
    socket_error w = None ->
    setsockopt_error w = None ->
    bind_error w = None ->
    fst (run_service UDP_PORT HTTP_PORT fuel w s) = Normal ->
    stop_event (snd (run_service UDP_PORT HTTP_PORT fuel w s)) = true.
Proof.
  intros fuel w s ip Hhost Hsock Hopt Hbind.
  unfold run_service, str_uuid4, try_block.
  rewrite Hhost, Hsock, Hopt, Hbind.
  match goal with
  | |- context [send_loop _ _ fuel w ?k ip 0 ?s1] =>
      pose proof (send_loop_normal_flag w k ip fuel 0 s1) as L;
      pose proof (send_loop_contains_exceptions w k ip fuel 0 s1) as B;
      destruct (send_loop UDP_PORT HTTP_PORT fuel w k ip 0 s1) as [c s2]
  end.
  cbn [fst snd] in L, B.
  destruct c as [| e |].
  - intros _. svc. now apply L.
  - rewrite (B e eq_refl). discriminate.
  - discriminate.
Qed.

Lemma send_loop_unasked (w : World) (key ip : string) :
  (forall t, stop_requested w t = false) ->
  (forall i e, sendto_error w i = Some e -> is_Exception e = true) ->
  forall (fuel i : nat) (s : Service),
    stop_event s = false ->
    fst (send_loop UDP_PORT HTTP_PORT fuel w key ip i s) = Running.
Proof.
  intros Hnever Hsend. induction fuel as [| fuel IH]; intros i s Hs;
    cbn [send_loop]; [reflexivity|].
  unfold observe. cbn [stop_event set_stop_event].
  rewrite Hs, Hnever. cbn [orb].
  destruct (sendto_error w i) as [e |] eqn:Hi.
  - rewrite (Hsend i e Hi). now apply IH.
  - now apply IH.
Qed.

(** X12: as long as nobody sets the stop flag, a run whose socket is set up
    never ends, however often [sendto] fails: a send error is logged and the
    loop goes on. *)
Theorem run_service_runs_until_asked :
  forall (fuel : nat) (w : World) (s : Service) (ip : string),
    gethostbyname w = inr ip ->
    socket_error w = None ->
    setsockopt_error w = None ->
    bind_error w = None ->
    (forall i e, sendto_error w i = Some e -> is_Exception e = true) ->
    (forall t, stop_requested w t = false) ->
    fst (run_service UDP_PORT HTTP_PORT fuel w s) = Running.
Proof.
  intros fuel w s ip Hhost Hsock Hopt Hbind Hsend Hnever.
  unfold run_service, str_uuid4, try_block.
  rewrite Hhost, Hsock, Hopt, Hbind.
  match goal with
  | |- context [send_loop _ _ fuel w ?k ip 0 ?s1] =>
      assert (L : fst (send_loop UDP_PORT HTTP_PORT fuel w k ip 0 s1) = Running)
        by (apply send_loop_unasked;
            [exact Hnever | exact Hsend | destruct (stop_event s) eqn:E;
                                          [reflexivity | exact E]]);
      destruct (send_loop UDP_PORT HTTP_PORT fuel w k ip 0 s1) as [c s2]
  end.
  cbn [fst] in L. subst c. reflexivity.
Qed.

(** X13: an error of the resolver is not contained: it leaves
    [run_service] as it is, before any socket exists; the key has been drawn,
    and only the starting message has been logged. *)
Theorem run_service_resolver_error :
  forall (fuel : nat) (w : World) (s : Service) (e : Exn),
    gethostbyname w = inl e ->
    run_service UDP_PORT HTTP_PORT fuel w s
    = (Raised e,
       {| stop_event := false;
          clock := clock s;
          entropy_reads := S (entropy_reads s);
          open_sockets := open_sockets s;
          sent := sent s;
          log := (log s ++ [(INFO, Starting_broadcast_service)])%list |}).
Proof.
  intros fuel w s e Hhost. unfold run_service, str_uuid4. rewrite Hhost.
  destruct (stop_event s) eqn:E; svc; [reflexivity | now rewrite E].
Qed.

(** X14: when [setsockopt] or [bind] fails, the loop is never entered: the
    error is logged, the socket that was opened is closed again, the closing
    message is logged, nothing is sent and the run returns normally. *)
Theorem run_service_setup_error :
  forall (fuel : nat) (w : World) (s : Service) (ip : string) (e : Exn),
    gethostbyname w = inr ip ->
    socket_error w = None ->
    setsockopt_error w = Some e
    \/ (setsockopt_error w = None /\ bind_error w = Some e) ->
    is_Exception e = true ->
    run_service UDP_PORT HTTP_PORT fuel w s
    = (Normal,
       {| stop_event := false;
          clock := clock s;
          entropy_reads := S (entropy_reads s);
          open_sockets := open_sockets s;
          sent := sent s;
          log := (log s ++
                  [ (INFO, Starting_broadcast_service);
                    (INFO, Generated_unique_key
                             (Uuid.str
                                (Uuid.uuid4 (urandom16 w (entropy_reads s)))));
                    (ERROR, Broadcast_service_failed e);
                    (INFO, Broadcast_service_stopped) ])%list |}).
Proof.
  intros fuel w s ip e Hhost Hsock Hfail He.
  unfold run_service, str_uuid4, try_block. rewrite Hhost, Hsock.
  destruct Hfail as [Hopt | [Hopt Hbind]];
    [rewrite Hopt | rewrite Hopt, Hbind]; rewrite He;
    destruct (stop_event s) eqn:E;
    unfold logging, close, socket_opened, set_stop_event;
    cbn [stop_event clock entropy_reads open_sockets sent log pred];
    rewrite ?E, <- !app_assoc; reflexivity.
Qed.

Lemma send_loop_socket (w : World) (key ip : string) (fuel : nat) :
  forall (i : nat) (s : Service),
    open_sockets (snd (send_loop UDP_PORT HTTP_PORT fuel w key ip i s))
    = open_sockets s.
Proof.
  intros i s. now destruct (send_loop_sent UDP_PORT HTTP_PORT w key ip fuel i s)
    as [times [_ [_ [_ H]]]].
Qed.

(** X15: when [socket.socket] succeeds and nothing but [Exception]s are
    raised, a run holds exactly one socket while it is in its loop, and when
    it ends it has returned normally, closed that socket and logged the
    closing message last. *)
Theorem run_service_socket_balance :
  forall (fuel : nat) (w : World) (s : Service) (ip : string),
    gethostbyname w = inr ip ->
    socket_error w = None ->
    (forall e, setsockopt_error w = Some e -> is_Exception e = true) ->
    (forall e, bind_error w = Some e -> is_Exception e = true) ->
    (forall i e, sendto_error w i = Some e -> is_Exception e = true) ->
    let r := run_service UDP_PORT HTTP_PORT fuel w s in
    (fst r = Running /\ open_sockets (snd r) = S (open_sockets s))
    \/ (fst r = Normal
        /\ open_sockets (snd r) = open_sockets s
        /\ exists l,
             log (snd r) = (l ++ [(INFO, Broadcast_service_stopped)])%list).
Proof.
  intros fuel w s ip Hhost Hsock Hopt Hbind Hsend r. subst r.
  unfold run_service, str_uuid4, try_block. rewrite Hhost, Hsock.
  destruct (setsockopt_error w) as [e2 |].
  { rewrite (Hopt e2 eq_refl). right. svc. destruct (stop_event s); eauto. }
  destruct (bind_error w) as [e3 |].
  { rewrite (Hbind e3 eq_refl). right. svc. destruct (stop_event s); eauto. }
  match goal with
  | |- context [send_loop _ _ fuel w ?k ip 0 ?s1] =>
      pose proof (send_loop_socket w k ip fuel 0 s1) as H4;
      pose proof (send_loop_completion UDP_PORT HTTP_PORT w k ip Hsend fuel 0 s1)
        as L;
      destruct (send_loop UDP_PORT HTTP_PORT fuel w k ip 0 s1) as [c s2]
  end.
  cbn [fst snd] in L, H4.
  destruct L as [-> | ->]; [right | left].
  - svc. rewrite H4. destruct (stop_event s); svc; eauto.
  - svc. rewrite H4. destruct (stop_event s); svc; auto.
Qed.

Lemma window_count (T c : nat) :
  c <= T -> (T + 5 - c) / 5 = S ((T + 5 - (c + 5)) / 5).
Proof.
  intros H. replace (T + 5 - c) with ((T + 5 - (c + 5)) + 1 * 5) by lia.
  rewrite Nat.div_add by lia. lia.
Qed.

Lemma send_loop_window (w : World) (key ip : string) (T : nat) :
  (forall t, stop_requested w t = (T <? t)%nat) ->
  (forall i, sendto_error w i = None) ->
  forall (fuel i : nat) (s : Service),
    stop_event s = false ->
    T + 1 - clock s < fuel ->
    let r := send_loop UDP_PORT HTTP_PORT fuel w key ip i s in
    fst r = Normal
    /\ sent (snd r)
       = (sent s ++ map (announcement UDP_PORT HTTP_PORT key ip)
                        (map (fun k => clock s + 5 * k)
                             (seq 0 ((T + 5 - clock s) / 5))))%list
    /\ clock (snd r) = clock s + 5 * ((T + 5 - clock s) / 5).
Proof.
  intros Hstop Hsend. induction fuel as [| fuel IH]; intros i s Hs Hfuel;
    [lia|]. cbn [send_loop].
  unfold observe. cbn [stop_event set_stop_event].
  rewrite Hs, Hstop. cbn [orb].
  destruct (Nat.ltb_spec T (clock s)) as [Hlate | Hearly].
  - replace ((T + 5 - clock s) / 5) with 0
      by (symmetry; apply Nat.div_small; lia).
    svc. cbn. rewrite app_nil_r. repeat split. lia.
  - rewrite Hsend.
    match goal with
    | |- context [send_loop _ _ fuel w key ip (S i) ?s1] =>
        destruct (IH (S i) s1) as [H1 [H2 H3]]; [reflexivity | svc; lia |]
    end.
    cbn [sent clock logging set_stop_event sleep sendto] in H2, H3.
    rewrite (window_count T (clock s) Hearly).
    split; [exact H1 | split].
    + rewrite H2, <- app_assoc, <- every_five_shift. reflexivity.
    + rewrite H3. lia.
Qed.

(** X16: with the socket set up, [sendto] never failing and the stop flag
    set at time [T], a run that starts at [c <= T] sends exactly
    [(T - c) / 5 + 1] datagrams, at [c], [c + 5], ..., then returns normally
    at the first multiple of 5 after [T], with its socket closed. *)
Theorem run_service_window :
  forall (fuel : nat) (w : World) (s : Service) (ip : string) (T : nat),
    gethostbyname w = inr ip ->
    socket_error w = None ->
    setsockopt_error w = None ->
    bind_error w = None ->
    (forall i, sendto_error w i = None) ->
    (forall t, stop_requested w t = (T <? t)%nat) ->
    clock s <= T ->
    T + 1 - clock s < fuel ->
    let r := run_service UDP_PORT HTTP_PORT fuel w s in
    let n := S ((T - clock s) / 5) in
    fst r = Normal
    /\ (exists new,
          sent (snd r) = (sent s ++ new)%list
          /\ map sent_at new = map (fun k => clock s + 5 * k) (seq 0 n))
    /\ clock (snd r) = clock s + 5 * n
    /\ open_sockets (snd r) = open_sockets s.
Proof.
  intros fuel w s ip T Hhost Hsock Hopt Hbind Hsend Hstop Hc Hfuel r n.
  subst r n.
  assert (Hn : (T + 5 - clock s) / 5 = S ((T - clock s) / 5)).
  { rewrite (window_count T (clock s) Hc). do 2 f_equal. lia. }
  unfold run_service, str_uuid4, try_block.
  rewrite Hhost, Hsock, Hopt, Hbind.
  match goal with
  | |- context [send_loop _ _ fuel w ?k ip 0 ?s1] =>
      assert (F : stop_event s1 = false)
        by (destruct (stop_event s) eqn:E; [reflexivity | exact E]);
      assert (G : T + 1 - clock s1 < fuel)
        by (destruct (stop_event s); exact Hfuel);
      destruct (send_loop_window w k ip T Hstop Hsend fuel 0 s1 F G)
        as [H1 [H2 H3]];
      pose proof (send_loop_socket w k ip fuel 0 s1) as H4;
      destruct (send_loop UDP_PORT HTTP_PORT fuel w k ip 0 s1) as [c s2]
  end.
  cbn [fst snd] in H1, H2, H3, H4. subst c. svc.
  assert (C : clock s2 = clock s + 5 * S ((T - clock s) / 5)
              /\ pred (open_sockets s2) = open_sockets s
              /\ sent s2
                 = (sent s
                    ++ map (announcement UDP_PORT HTTP_PORT
                              (Uuid.str
                                 (Uuid.uuid4 (urandom16 w (entropy_reads s))))
                              ip)
                           (map (fun k => clock s + 5 * k)
                                (seq 0 (S ((T - clock s) / 5)))))%list).
  { rewrite <- Hn. destruct (stop_event s);
      cbn [clock sent open_sockets logging socket_opened set_stop_event]
        in H2, H3, H4; rewrite H4; auto. }
  destruct C as [C1 [C2 C3]].
  split; [reflexivity | split; [| split; assumption]].
  eexists. split; [exact C3|].
  rewrite !map_map. apply map_ext. intros k. reflexivity.
Qed.

Lemma send_loop_log (w : World) (key ip : string) :
  (forall i e, sendto_error w i = Some e -> is_Exception e = true) ->
  forall (fuel i : nat) (s : Service),
    let r := send_loop UDP_PORT HTTP_PORT fuel w key ip i s in
    exists n : nat,
      log (snd r)
      = (log s ++ map (round_record UDP_PORT HTTP_PORT w key ip) (seq i n))%list
      /\ List.length (sent (snd r))
         = List.length (sent s)
           + List.length (filter (sendto_succeeds w) (seq i n)).
Proof.
  intros Hsend. induction fuel as [| fuel IH]; intros i s; cbn [send_loop].
  - exists 0. svc. cbn. rewrite app_nil_r. split; [reflexivity | lia].
  - unfold observe. cbn [stop_event set_stop_event].
    destruct (stop_event s || stop_requested w (clock s)).
    + exists 0. svc. cbn. rewrite app_nil_r. split; [reflexivity | lia].
    + destruct (sendto_error w i) as [e |] eqn:Hi.
      * rewrite (Hsend i e Hi).
        match goal with
        | |- context [send_loop _ _ fuel w key ip (S i) ?s1] =>
            destruct (IH (S i) s1) as [n [H1 H2]]
        end.
        exists (S n). cbn [sent log logging set_stop_event] in H1, H2.
        rewrite H1, H2, <- app_assoc. cbn [seq map filter app].
        unfold round_record at 2, sendto_succeeds at 2. rewrite Hi.
        split; reflexivity.
      * match goal with
        | |- context [send_loop _ _ fuel w key ip (S i) ?s1] =>
            destruct (IH (S i) s1) as [n [H1 H2]]
        end.
        exists (S n).
        cbn [sent log logging set_stop_event sleep sendto] in H1, H2.
        rewrite H1, H2, <- app_assoc, length_app. cbn [seq map filter app].
        unfold round_record at 2, sendto_succeeds at 2. rewrite Hi.
        cbn [List.length]. split; [reflexivity | lia].
Qed.

(** X17: the log of a run whose socket is set up is the starting message,
    the key, then one record per round of the loop in order, INFO with the
    payload for a datagram sent and WARNING with the error for a [sendto]
    that failed, after which the next round follows, and the closing message
    once the run has returned; the datagrams sent are as many as the rounds in
    which [sendto] succeeded. *)
Theorem run_service_log :
  forall (fuel : nat) (w : World) (s : Service) (ip : string),
    gethostbyname w = inr ip ->
    socket_error w = None ->
    setsockopt_error w = None ->
    bind_error w = None ->
    (forall i e, sendto_error w i = Some e -> is_Exception e = true) ->
    let key := Uuid.str (Uuid.uuid4 (urandom16 w (entropy_reads s))) in
    let r := run_service UDP_PORT HTTP_PORT fuel w s in
    exists n : nat,
      log (snd r)
      = (log s
         ++ [(INFO, Starting_broadcast_service);
             (INFO, Generated_unique_key key)]
         ++ map (round_record UDP_PORT HTTP_PORT w key ip) (seq 0 n)
         ++ match fst r with
            | Running => []
            | _ => [(INFO, Broadcast_service_stopped)]
            end)%list
      /\ List.length (sent (snd r))
         = List.length (sent s)
           + List.length (filter (sendto_succeeds w) (seq 0 n)).
Proof.
  intros fuel w s ip Hhost Hsock Hopt Hbind Hsend key r. subst key r.
  unfold run_service, str_uuid4, try_block.
  rewrite Hhost, Hsock, Hopt, Hbind.
  match goal with
  | |- context [send_loop _ _ fuel w ?k ip 0 ?s1] =>
      destruct (send_loop_log w k ip Hsend fuel 0 s1) as [n [H1 H2]];
      pose proof (send_loop_completion UDP_PORT HTTP_PORT w k ip Hsend fuel 0 s1)
        as L;
      destruct (send_loop UDP_PORT HTTP_PORT fuel w k ip 0 s1) as [c s2]
  end.
  cbn [fst snd] in L, H1, H2. exists n.
  assert (C : log s2
              = (log s
                 ++ [(INFO, Starting_broadcast_service);
                     (INFO, Generated_unique_key
                              (Uuid.str
                                 (Uuid.uuid4 (urandom16 w (entropy_reads s)))))]
                 ++ map (round_record UDP_PORT HTTP_PORT w
                           (Uuid.str
                              (Uuid.uuid4 (urandom16 w (entropy_reads s))))
                           ip) (seq 0 n))%list
              /\ List.length (sent s2)
                 = List.length (sent s)
                   + List.length (filter (sendto_succeeds w) (seq 0 n))).
  { destruct (stop_event s);
      cbn [sent log logging socket_opened set_stop_event entropy_reads]
        in H1, H2; rewrite H1, H2, <- !app_assoc; split; reflexivity. }
  destruct C as [C1 C2].
  destruct L as [-> | ->]; svc; rewrite C1, C2.
  - rewrite <- !app_assoc. split; reflexivity.
  - rewrite app_nil_r. split; reflexivity.
Qed.

End BroadcastInvariants.

(** ** The text of the datagrams *)

Section DatagramText.

Import Json.

Lemma printable_text_append (a b : string) :
  printable_text (a ++ b) = printable_text a && printable_text b.
Proof.
  induction a as [| c a IH]; cbn; [reflexivity|].
  now rewrite IH, andb_assoc.
Qed.

Lemma escape_char_printable (c : ascii) : printable_text (escape_char c) = true.
Proof. destruct c as [[] [] [] [] [] [] [] []]; vm_compute; reflexivity. Qed.

Lemma escape_printable (s : string) : printable_text (escape s) = true.
Proof.
  induction s as [| c s IH]; cbn [escape]; [reflexivity|].
  now rewrite printable_text_append, escape_char_printable, IH.
Qed.

Lemma encode_basestring_ascii_printable (s : string) :
  printable_text (encode_basestring_ascii s) = true.
Proof.
  unfold encode_basestring_ascii. cbn [printable_text].
  rewrite printable_text_append, escape_printable. reflexivity.
Qed.

Lemma uint_printable (d : Decimal.uint) :
  printable_text (NilEmpty.string_of_uint d) = true.
Proof. induction d; cbn [NilEmpty.string_of_uint printable_text]; auto. Qed.

Lemma repr_int_printable (z : Z) : printable_text (repr_int z) = true.
Proof.
  destruct (repr_int_cases z) as [d [_ [E | E]]]; rewrite E.
  - apply uint_printable.
  - cbn [printable_text]. now rewrite uint_printable.
Qed.

Lemma dumps_item_printable (kv : string * Value) :
  printable_text (dumps_item kv) = true.
Proof.
  unfold dumps_item. rewrite !printable_text_append.
  rewrite encode_basestring_ascii_printable.
  destruct (snd kv) as [v | z]; cbn [dumps_value].
  - now rewrite encode_basestring_ascii_printable.
  - now rewrite repr_int_printable.
Qed.

Lemma dumps_items_printable (d : Dict) : printable_text (dumps_items d) = true.
Proof.
  induction d as [| kv d IH]; [reflexivity|].
  destruct d as [| kv' d]; [apply dumps_item_printable|].
  change (dumps_items (kv :: kv' :: d))
    with (dumps_item kv ++ ", " ++ dumps_items (kv' :: d)).
  now rewrite !printable_text_append, dumps_item_printable, IH.
Qed.

(** Whatever the address is, quotes, backslashes and control characters
    included, the text of an announcement is made of the characters from the
    space to the tilde only. *)
Lemma announcement_printable :
  forall (UDP_PORT HTTP_PORT : Z) (unique_key local_ip : string) (t : nat),
    printable_text
      (decode_utf8
         (Broadcast.data
            (Broadcast.announcement UDP_PORT HTTP_PORT unique_key local_ip t)))
    = true.
Proof.
  intros UDP_PORT HTTP_PORT unique_key local_ip t.
  unfold Broadcast.announcement. cbn [Broadcast.data].
  unfold decode_utf8, encode_utf8. rewrite string_of_list_byte_of_string.
  unfold dumps. cbn [printable_text append].
  now rewrite printable_text_append, dumps_items_printable.
Qed.

End DatagramText.

(** ** Sample runs of the broadcast service *)

Section BroadcastSamples.

Import Broadcast.

(** X18: every datagram a run adds to the network is printable ASCII text,
    whatever address the resolver returned, quotes, backslashes and control
    characters included. *)
Theorem run_service_sends_printable :
  forall (UDP_PORT HTTP_PORT : Z) (fuel : nat) (w : World) (s : Service)
         (d : Datagram),
    In d (sent (snd (run_service UDP_PORT HTTP_PORT fuel w s))) ->
    In d (sent s)
    \/ Json.printable_text (Json.decode_utf8 (data d)) = true.
Proof.
  intros UDP_PORT HTTP_PORT fuel w s d Hd.
  destruct (gethostbyname w) as [e | ip] eqn:Hhost.
  - left.
    destruct (run_service_unresolved_host UDP_PORT HTTP_PORT w fuel s e Hhost)
      as [_ E].
    now rewrite E in Hd.
  - destruct (run_service_sent UDP_PORT HTTP_PORT w fuel s ip Hhost)
      as [times [E _]].
    rewrite E, in_app_iff in Hd. destruct Hd as [Hd | Hd]; [now left|].
    right. apply in_map_iff in Hd. destruct Hd as [t [<- _]].
    apply announcement_printable.
Qed.

Lemma run_service_sends_printable_witness :
  In second_datagram (sent (snd (run_service 7899 6229 10 (calm 12) idle)))
  /\ (In second_datagram (sent idle)
      \/ Json.printable_text (Json.decode_utf8 (data second_datagram)) = true).
Proof.
  assert (H : In second_datagram
                (sent (snd (run_service 7899 6229 10 (calm 12) idle)))).
  { vm_compute. right. left. reflexivity. }
  split; [exact H|].
  exact (run_service_sends_printable 7899 6229 10 (calm 12) idle
           second_datagram H).
Defined.

Lemma flaky_raises_exceptions (T : nat) :
  forall i e, sendto_error (flaky T) i = Some e -> is_Exception e = true.
Proof.
  intros i e. cbn [sendto_error flaky].
  destruct (i <? 2)%nat; intros H; inversion H. reflexivity.
Qed.

Lemma run_service_returns_when_stopped_witness :
  gethostbyname (calm 10) = inr "192.168.1.20"
  /\ socket_error (calm 10) = None
  /\ setsockopt_error (calm 10) = None
  /\ bind_error (calm 10) = None
  /\ fst (run_service 7899 6229 10 (calm 10) idle) = Normal
  /\ stop_event (snd (run_service 7899 6229 10 (calm 10) idle)) = true.
Proof.
  do 5 (split; [reflexivity|]).
  apply (run_service_returns_when_stopped 7899 6229 10 (calm 10) idle
           "192.168.1.20"); reflexivity.
Defined.

Lemma run_service_runs_until_asked_witness :
  gethostbyname unattended = inr "192.168.1.20"
  /\ socket_error unattended = None
  /\ setsockopt_error unattended = None
  /\ bind_error unattended = None
  /\ (forall i e, sendto_error unattended i = Some e -> is_Exception e = true)
  /\ (forall t, stop_requested unattended t = false)
  /\ fst (run_service 7899 6229 40 unattended idle) = Running.
Proof.
  do 4 (split; [reflexivity|]).
  split; [exact (flaky_raises_exceptions 0)|].
  split; [reflexivity|].
  apply (run_service_runs_until_asked 7899 6229 40 unattended idle
           "192.168.1.20");
    try reflexivity. exact (flaky_raises_exceptions 0).
Defined.

Lemma run_service_resolver_error_witness :
  gethostbyname (unresolvable 10) = inl (OSError "Name or service not known")
  /\ fst (run_service 7899 6229 10 (unresolvable 10) idle)
     = Raised (OSError "Name or service not known").
Proof.
  split; [reflexivity|].
  rewrite (run_service_resolver_error 7899 6229 10 (unresolvable 10) idle
             (OSError "Name or service not known") eq_refl).
  reflexivity.
Defined.

Lemma run_service_setup_error_witness :
  gethostbyname (bind_refused 10) = inr "192.168.1.20"
  /\ socket_error (bind_refused 10) = None
  /\ (setsockopt_error (bind_refused 10) = Some (OSError "Permission denied")
      \/ (setsockopt_error (bind_refused 10) = None
          /\ bind_error (bind_refused 10) = Some (OSError "Permission denied")))
  /\ is_Exception (OSError "Permission denied") = true
  /\ fst (run_service 7899 6229 10 (bind_refused 10) idle) = Normal.
Proof.
  assert (H : setsockopt_error (bind_refused 10)
              = Some (OSError "Permission denied")
              \/ (setsockopt_error (bind_refused 10) = None
                  /\ bind_error (bind_refused 10)
                     = Some (OSError "Permission denied")))
    by (right; split; reflexivity).
  split; [reflexivity | split; [reflexivity | split; [exact H|]]].
  split; [reflexivity|].
  rewrite (run_service_setup_error 7899 6229 10 (bind_refused 10) idle
             "192.168.1.20" (OSError "Permission denied")
             eq_refl eq_refl H eq_refl).
  reflexivity.
Defined.

Lemma run_service_socket_balance_witness :
  gethostbyname (flaky 10) = inr "192.168.1.20"
  /\ socket_error (flaky 10) = None
  /\ (forall e, setsockopt_error (flaky 10) = Some e -> is_Exception e = true)
  /\ (forall e, bind_error (flaky 10) = Some e -> is_Exception e = true)
  /\ (forall i e, sendto_error (flaky 10) i = Some e -> is_Exception e = true)
  /\ ((fst (run_service 7899 6229 3 (flaky 10) idle) = Running
       /\ open_sockets (snd (run_service 7899 6229 3 (flaky 10) idle))
          = S (open_sockets idle))
      \/ (fst (run_service 7899 6229 3 (flaky 10) idle) = Normal
          /\ open_sockets (snd (run_service 7899 6229 3 (flaky 10) idle))
             = open_sockets idle
          /\ exists l,
               log (snd (run_service 7899 6229 3 (flaky 10) idle))
               = (l ++ [(INFO, Broadcast_service_stopped)])%list)).
Proof.
  assert (H1 : forall e, setsockopt_error (flaky 10) = Some e ->
                         is_Exception e = true) by (intros e H; discriminate H).
  assert (H2 : forall e, bind_error (flaky 10) = Some e ->
                         is_Exception e = true) by (intros e H; discriminate H).
  split; [reflexivity | split; [reflexivity|]].
  split; [exact H1 | split; [exact H2|]].
  split; [exact (flaky_raises_exceptions 10)|].
  exact (run_service_socket_balance 7899 6229 3 (flaky 10) idle "192.168.1.20"
           eq_refl eq_refl H1 H2 (flaky_raises_exceptions 10)).
Defined.

Lemma run_service_window_witness :
  gethostbyname (calm 12) = inr "192.168.1.20"
  /\ socket_error (calm 12) = None
  /\ setsockopt_error (calm 12) = None
  /\ bind_error (calm 12) = None
  /\ (forall i, sendto_error (calm 12) i = None)
  /\ (forall t, stop_requested (calm 12) t = (12 <? t)%nat)
  /\ clock idle <= 12
  /\ 12 + 1 - clock idle < 20
  /\ fst (run_service 7899 6229 20 (calm 12) idle) = Normal
  /\ clock (snd (run_service 7899 6229 20 (calm 12) idle))
     = clock idle + 5 * S ((12 - clock idle) / 5).
Proof.
  assert (H1 : clock idle <= 12) by (cbn; lia).
  assert (H2 : 12 + 1 - clock idle < 20) by (cbn; lia).
  do 6 (split; [reflexivity|]).
  split; [exact H1 | split; [exact H2|]].
  split;
    apply (run_service_window 7899 6229 20 (calm 12) idle "192.168.1.20" 12);
    try reflexivity; assumption.
Defined.

Lemma run_service_log_witness :
  gethostbyname (flaky 12) = inr "192.168.1.20"
  /\ socket_error (flaky 12) = None
  /\ setsockopt_error (flaky 12) = None
  /\ bind_error (flaky 12) = None
  /\ (forall i e, sendto_error (flaky 12) i = Some e -> is_Exception e = true)
  /\ exists n : nat,
       List.length (sent (snd (run_service 7899 6229 20 (flaky 12) idle)))
       = List.length (sent idle)
         + List.length (filter (sendto_succeeds (flaky 12)) (seq 0 n)).
Proof.
  do 4 (split; [reflexivity|]).
  split; [exact (flaky_raises_exceptions 12)|].
  destruct (run_service_log 7899 6229 20 (flaky 12) idle "192.168.1.20"
              eq_refl eq_refl eq_refl eq_refl (flaky_raises_exceptions 12))
    as [n [_ H]].
  exists n. exact H.
Defined.

(** A run with the network down in its first two rounds: two warnings, no
    time lost, then three datagrams and the closing message. *)
Example flaky_run :
  let r := run_service 7899 6229 20 (flaky 12) idle in
  fst r = Normal
  /\ map sent_at (sent (snd r)) = [0; 5; 10]
  /\ map fst (log (snd r))
     = [INFO; INFO; WARNING; WARNING; INFO; INFO; INFO; INFO].
Proof. vm_compute. repeat split. Qed.

End BroadcastSamples.
